(** * AnchorBrowser: the session-backed command adapter of computers/anchor.py

    A shallow embedding of the class [AnchorBrowser] (a subclass of
    [BasePlaywrightComputer]) and proofs about its fallback chain, its
    session lifecycle and its page tracking.

    The class talks to three collaborators that are not part of anchor.py:
    the [requests] HTTP client, the Playwright connection, and the inherited
    [BasePlaywrightComputer] methods reached through [super()].  They are
    modelled as a [world] of oracles; every call to one of them is recorded,
    in order, in a trace of [event]s together with every [print]. *)

From Stdlib Require Import ZArith String List Bool Lia DecimalString.
Import ListNotations.

Open Scope string_scope.
Open Scope Z_scope.

(** ** Python values, truthiness and formatting *)

(** The values that can sit in [self.session_id]: [None], or whatever
    [response.json().get("id")] delivered (JSON null, booleans, integers
    and strings are covered). *)
Inductive pyval : Type :=
| PNone
| PBool (b : bool)
| PInt (z : Z)
| PStr (s : string).

(** [bool(v)], as used by [if self.session_id:] and [if not self.session_id:]. *)
Definition truthy (v : pyval) : bool :=
  match v with
  | PNone => false
  | PBool b => b
  | PInt z => negb (z =? 0)
  | PStr s => negb (s =? "")%string
  end.

Definition string_of_Z (z : Z) : string :=
  NilZero.string_of_int (Z.to_int z).

(** [str(v)], as used by the f-strings that splice the identifier in a URL. *)
Definition py_str (v : pyval) : string :=
  match v with
  | PNone => "None"
  | PBool true => "True"
  | PBool false => "False"
  | PInt z => string_of_Z z
  | PStr s => s
  end.

(** ** Exceptions *)

Inductive exn_class : Type :=
| HTTPError
| RequestException
| JSONDecodeError
| AttributeError
| IndexError
| ValueError
| PlaywrightError
| KeyboardInterrupt.

Record exn : Type := mk_exn { exn_kind : exn_class; exn_msg : string }.

(** [except Exception] catches every class above except [KeyboardInterrupt],
    which derives from [BaseException] only. *)
Definition is_Exception (e : exn) : bool :=
  match exn_kind e with
  | KeyboardInterrupt => false
  | _ => true
  end.

Inductive outcome (A : Type) : Type :=
| Ok (a : A)
| Raise (e : exn).
Arguments Ok {A} a.
Arguments Raise {A} e.

(** ** HTTP requests and responses *)

Inductive http_method : Type := GET | POST | DELETE.

Inductive json : Type :=
| JInt (z : Z)
| JBool (b : bool)
| JStr (s : string).

Record request : Type := mk_request {
  req_method : http_method;
  req_url : string;
  req_headers : list (string * string);
  req_json : option (list (string * json))
}.

(** What [response.json()] finds in the body. *)
Inductive json_doc : Type :=
| JInvalid
| JNotObject
| JObject (fields : list (string * pyval)).

Record Response : Type := mk_response {
  status_code : Z;
  text : string;
  body : json_doc
}.

(** [requests.Response.raise_for_status] raises [HTTPError] for the client
    and server error classes, 400 to 599, and [Response.ok] is true exactly
    when it does not raise. *)
Definition is_error_status (r : Response) : bool :=
  (400 <=? status_code r) && (status_code r <? 600).

Definition ok (r : Response) : bool := negb (is_error_status r).

(** ** Playwright objects *)

Definition Page : Type := nat.

Record BrowserContext : Type := mk_context { pages : list Page }.

Record Browser : Type := mk_browser { contexts : list BrowserContext }.

(** ** Calls into the base class and the trace *)

(** The three operations of [BasePlaywrightComputer] that anchor.py reaches
    through [super()]: the fallback driver. *)
Inductive base_call : Type :=
| BScreenshot
| BClick (x y : Z) (button : string)
| BType (text : string).

Inductive event : Type :=
| Print (msg : string)
| Http (req : request)
| Super (call : base_call)
| ConnectOverCdp (endpoint : string)
| Goto (page : Page) (url : string).

(** ** The object *)

Record AnchorBrowser : Type := mk_self {
  api_key : string;
  debug : bool;
  base_url : string;
  base_ws_url : string;
  session_id : pyval;
  dimensions : Z * Z;
  proxy_config : bool;
  adblock_config : bool * bool;
  captcha_config : bool;
  timeout : Z;
  idle_timeout : Z;
  _browser : option Browser;
  _page : option Page;
  (* how many times [context.on("page", self._handle_new_page)] ran *)
  page_listeners : nat;
  (* the pages on which [page.on("close", self._handle_page_close)] ran,
      one entry per registration *)
  close_listeners : list Page
}.

Definition set_session_id (v : pyval) (s : AnchorBrowser) : AnchorBrowser :=
  mk_self (api_key s) (debug s) (base_url s) (base_ws_url s) v (dimensions s)
    (proxy_config s) (adblock_config s) (captcha_config s) (timeout s)
    (idle_timeout s) (_browser s) (_page s) (page_listeners s)
    (close_listeners s).

Definition set_page (p : option Page) (s : AnchorBrowser) : AnchorBrowser :=
  mk_self (api_key s) (debug s) (base_url s) (base_ws_url s) (session_id s)
    (dimensions s) (proxy_config s) (adblock_config s) (captcha_config s)
    (timeout s) (idle_timeout s) (_browser s) p (page_listeners s)
    (close_listeners s).

Definition set_browser (b : option Browser) (s : AnchorBrowser) : AnchorBrowser :=
  mk_self (api_key s) (debug s) (base_url s) (base_ws_url s) (session_id s)
    (dimensions s) (proxy_config s) (adblock_config s) (captcha_config s)
    (timeout s) (idle_timeout s) b (_page s) (page_listeners s)
    (close_listeners s).

Definition add_page_listener (s : AnchorBrowser) : AnchorBrowser :=
  mk_self (api_key s) (debug s) (base_url s) (base_ws_url s) (session_id s)
    (dimensions s) (proxy_config s) (adblock_config s) (captcha_config s)
    (timeout s) (idle_timeout s) (_browser s) (_page s)
    (S (page_listeners s)) (close_listeners s).

Definition add_close_listener (p : Page) (s : AnchorBrowser) : AnchorBrowser :=
  mk_self (api_key s) (debug s) (base_url s) (base_ws_url s) (session_id s)
    (dimensions s) (proxy_config s) (adblock_config s) (captcha_config s)
    (timeout s) (idle_timeout s) (_browser s) (_page s) (page_listeners s)
    (close_listeners s ++ [p])%list.

(** ** The world *)

(** Each collaborator answers as a function of everything that happened so
    far, so it may answer the same call differently the second time. *)
Record world : Type := mk_world {
  requests_send : list event -> request -> outcome Response;
  super_call : list event -> base_call -> outcome pyval;
  connect_over_cdp : list event -> string -> outcome Browser;
  page_goto : list event -> Page -> string -> outcome unit
}.

(** ** The monad of method bodies

    A method body runs in a world, after a history [h], on the object [s];
    it gives an outcome, the object as it left it, and the events it
    emitted. *)
Definition M (A : Type) : Type :=
  world -> list event -> AnchorBrowser ->
  outcome A * AnchorBrowser * list event.

Definition ret {A : Type} (a : A) : M A :=
  fun _ _ s => (Ok a, s, []).

Definition bind {A B : Type} (m : M A) (k : A -> M B) : M B :=
  fun w h s =>
    match m w h s with
    | (Ok a, s1, d1) =>
        match k a w (h ++ d1)%list s1 with
        | (r, s2, d2) => (r, s2, (d1 ++ d2)%list)
        end
    | (Raise e, s1, d1) => (Raise e, s1, d1)
    end.

Definition raise {A : Type} (e : exn) : M A :=
  fun _ _ s => (Raise e, s, []).

(** [try: m  except Exception as error: handler error] *)
Definition try_except {A : Type} (m : M A) (handler : exn -> M A) : M A :=
  fun w h s =>
    match m w h s with
    | (Ok a, s1, d1) => (Ok a, s1, d1)
    | (Raise e, s1, d1) =>
        if is_Exception e then
          match handler e w (h ++ d1)%list s1 with
          | (r, s2, d2) => (r, s2, (d1 ++ d2)%list)
          end
        else (Raise e, s1, d1)
    end.

Definition self : M AnchorBrowser :=
  fun _ _ s => (Ok s, s, []).

Definition update (f : AnchorBrowser -> AnchorBrowser) : M unit :=
  fun _ _ s => (Ok tt, f s, []).

Definition print (msg : string) : M unit :=
  fun _ _ s => (Ok tt, s, [Print msg]).

Definition requests (req : request) : M Response :=
  fun w h s => (requests_send w h req, s, [Http req]).

Definition super (call : base_call) : M pyval :=
  fun w h s => (super_call w h call, s, [Super call]).

Definition chromium_connect_over_cdp (endpoint : string) : M Browser :=
  fun w h s => (connect_over_cdp w h endpoint, s, [ConnectOverCdp endpoint]).

Definition goto (p : Page) (url : string) : M unit :=
  fun w h s => (page_goto w h p url, s, [Goto p url]).

Declare Scope py_scope.
Delimit Scope py_scope with py.
Notation "x <- m ;; k" := (bind m (fun x => k))
  (at level 100, m at next level, right associativity) : py_scope.
Notation "m ;; k" := (bind m (fun _ => k))
  (at level 100, right associativity) : py_scope.
Open Scope py_scope.

(** ** Small pieces of Python used by the methods *)

(** [d.get(k)] on a dictionary given by its items. *)
Fixpoint dict_get {V : Type} (k : string) (d : list (string * V)) : option V :=
  match d with
  | [] => None
  | (k', v) :: d' => if (k =? k')%string then Some v else dict_get k d'
  end.

(** [l[-1]] *)
Fixpoint last_item {A : Type} (l : list A) : option A :=
  match l with
  | [] => None
  | [a] => Some a
  | _ :: l' => last_item l'
  end.

Definition nonempty {A : Type} (l : list A) : bool :=
  match l with
  | [] => false
  | _ :: _ => true
  end.

(** [l[i]], raising [IndexError] out of range. *)
Definition getitem {A : Type} (item : option A) : M A :=
  match item with
  | Some a => ret a
  | None => raise (mk_exn IndexError "list index out of range")
  end.

(** [response.raise_for_status()] *)
Definition raise_for_status (r : Response) : M unit :=
  if is_error_status r then
    raise (mk_exn HTTPError (string_of_Z (status_code r)))
  else ret tt.

(** [response.json().get("id")] *)
Definition json_get_id (r : Response) : M pyval :=
  match body r with
  | JInvalid => raise (mk_exn JSONDecodeError "Expecting value")
  | JNotObject => raise (mk_exn AttributeError "object has no attribute 'get'")
  | JObject fields =>
      match dict_get "id" fields with
      | Some v => ret v
      | None => ret PNone
      end
  end.

(** [self._browser.contexts[0].pages] *)
Definition browser_context0_pages : M (list Page) :=
  s <- self ;;
  match _browser s with
  | None =>
      raise (mk_exn AttributeError
               "'NoneType' object has no attribute 'contexts'")
  | Some b =>
      context <- getitem (hd_error (contexts b)) ;;
      ret (pages context)
  end.

(** [self._page == page] *)
Definition page_is (current : option Page) (page : Page) : bool :=
  match current with
  | Some p => Nat.eqb p page
  | None => false
  end.

Definition anchor_headers (s : AnchorBrowser) : list (string * string) :=
  [("anchor-api-key", api_key s)].

(** ** The methods of [AnchorBrowser] *)

Definition __init__ (getenv_ANCHOR_API_KEY : option string)
    (width height : Z)
    (proxy_active adblock_active popup_blocking_active captcha_active : bool)
    (timeout idle_timeout : Z) (debug : bool)
  : outcome AnchorBrowser * list event :=
  match getenv_ANCHOR_API_KEY with
  | None => (Raise (mk_exn ValueError "ANCHOR_API_KEY not found in .env file"), [])
  | Some key =>
      if (key =? "")%string then
        (Raise (mk_exn ValueError "ANCHOR_API_KEY not found in .env file"), [])
      else
        (Ok (mk_self key debug "https://api.anchorbrowser.io/api"
               "wss://connect.anchorbrowser.io" PNone (width, height)
               proxy_active (adblock_active, popup_blocking_active)
               captcha_active timeout idle_timeout None None 0%nat []),
         if debug then
           [Print ("Anchor browser initialized with viewport "
                   ++ string_of_Z width ++ "x" ++ string_of_Z height)]
         else [])
  end.

Definition _get_browser_and_page : M (Browser * Page) :=
  s <- self ;;
  let '(width, height) := dimensions s in
  response <- requests
    (mk_request POST (base_url s ++ "/sessions") (anchor_headers s)
       (Some [("width", JInt width);
              ("height", JInt height);
              ("useProxy", JBool (proxy_config s));
              ("solveCaptcha", JBool (captcha_config s));
              ("sessionTimeout", JInt (timeout s));
              ("sessionIdleTimeout", JInt (idle_timeout s));
              ("adBlocker", JBool (fst (adblock_config s)));
              ("popupBlockingActive", JBool (snd (adblock_config s)));
              ("headless", JBool false)])) ;;
  raise_for_status response ;;
  id <- json_get_id response ;;
  update (set_session_id id) ;;
  (if negb (truthy id) then
     raise (mk_exn ValueError "Failed to create Anchor browser session")
   else ret tt) ;;
  browser <- chromium_connect_over_cdp
    (base_ws_url s ++ "/?sessionId=" ++ py_str id) ;;
  context <- getitem (hd_error (contexts browser)) ;;
  update add_page_listener ;;
  page <- getitem (hd_error (pages context)) ;;
  goto page "https://bing.com" ;;
  ret (browser, page).

Definition _handle_new_page (page : Page) : M unit :=
  print "New page created" ;;
  update (set_page (Some page)) ;;
  update (add_close_listener page).

Definition _handle_page_close (page : Page) : M unit :=
  print "Page closed" ;;
  s <- self ;;
  if page_is (_page s) page then
    remaining <- browser_context0_pages ;;
    if nonempty remaining then
      again <- browser_context0_pages ;;
      last <- getitem (last_item again) ;;
      update (set_page (Some last))
    else
      print "Warning: All pages have been closed." ;;
      update (set_page None)
  else ret tt.

Definition __exit__ : M unit :=
  s <- self ;;
  if truthy (session_id s) then
    requests
      (mk_request DELETE (base_url s ++ "/sessions/" ++ py_str (session_id s))
         (anchor_headers s) None) ;;
    (if debug s then
       print ("Ended Anchor session: " ++ py_str (session_id s))
     else ret tt) ;;
    update (set_session_id PNone)
  else ret tt.

Definition screenshot_request (s : AnchorBrowser) : request :=
  mk_request GET
    (base_url s ++ "/sessions/" ++ py_str (session_id s) ++ "/screenshot")
    (anchor_headers s) None.

Definition screenshot : M pyval :=
  s <- self ;;
  if negb (truthy (session_id s)) then
    print "No active session, falling back to standard screenshot" ;;
    super BScreenshot
  else
    try_except
      (response <- requests (screenshot_request s) ;;
       if negb (ok response) then
         print ("Anchor screenshot failed with status "
                ++ string_of_Z (status_code response)
                ++ ", falling back to standard screenshot") ;;
         super BScreenshot
       else ret (PStr (text response)))
      (fun error =>
         print ("Anchor screenshot failed, falling back to standard screenshot: "
                ++ exn_msg error) ;;
         super BScreenshot).

Definition button_mapping : list (string * string) :=
  [("left", "left"); ("right", "right")].

Definition click_request (s : AnchorBrowser) (x y : Z) (button : string)
  : request :=
  let button_type :=
    match dict_get button button_mapping with
    | Some b => b
    | None => "left"
    end in
  mk_request POST
    (base_url s ++ "/sessions/" ++ py_str (session_id s) ++ "/mouse/click")
    (anchor_headers s)
    (Some [("x", JInt x); ("y", JInt y); ("button", JStr button_type)]).

Definition click (x y : Z) (button : string) : M pyval :=
  if existsb (String.eqb button) ["back"; "forward"; "wheel"] then
    super (BClick x y button)
  else
    s <- self ;;
    if negb (truthy (session_id s)) then
      print "No active session, falling back to standard click" ;;
      super (BClick x y button)
    else
      try_except
        (response <- requests (click_request s x y button) ;;
         if negb (ok response) then
           print ("Anchor click failed with status "
                  ++ string_of_Z (status_code response)
                  ++ ", falling back to standard click") ;;
           super (BClick x y button) ;;
           ret PNone
         else ret PNone)
        (fun error =>
           print ("Anchor click failed, falling back to standard click: "
                  ++ exn_msg error) ;;
           super (BClick x y button) ;;
           ret PNone).

Definition type_request (s : AnchorBrowser) (text : string) : request :=
  mk_request POST
    (base_url s ++ "/sessions/" ++ py_str (session_id s) ++ "/keyboard/type")
    (anchor_headers s)
    (Some [("text", JStr text); ("delay", JInt 30)]).

Definition type (text : string) : M pyval :=
  s <- self ;;
  if negb (truthy (session_id s)) then
    print "No active session, falling back to standard type" ;;
    super (BType text)
  else
    try_except
      (response <- requests (type_request s text) ;;
       if negb (ok response) then
         print ("Anchor type failed with status "
                ++ string_of_Z (status_code response)
                ++ ", falling back to standard type") ;;
         super (BType text) ;;
         ret PNone
       else ret PNone)
      (fun error =>
         print ("Anchor type failed, falling back to standard type: "
                ++ exn_msg error) ;;
         super (BType text) ;;
         ret PNone).

(** Modelled from the spec: the inherited [__enter__] of
    [BasePlaywrightComputer], which lives in base_playwright.py and not in
    anchor.py.  Section 3 has the connection handle (browser and page
    references) obtained once per session, and section 4.3 starts the page
    tracker in [Active(firstPage)] immediately after connection resolution:
    the handle returned by [_get_browser_and_page] is stored in the object. *)
Definition __enter__ : M unit :=
  handle <- _get_browser_and_page ;;
  update (set_browser (Some (fst handle))) ;;
  update (set_page (Some (snd handle))).

(** ** Commands *)

Inductive command : Type :=
| Screenshot
| Click (x y : Z) (button : string)
| TypeText (text : string).

Definition run (c : command) : M pyval :=
  match c with
  | Screenshot => screenshot
  | Click x y button => click x y button
  | TypeText text => type text
  end.

(** The operation of the base class that stands behind a command. *)
Definition fallback_of (c : command) : base_call :=
  match c with
  | Screenshot => BScreenshot
  | Click x y button => BClick x y button
  | TypeText text => BType text
  end.

(** The request a command sends to the vendor. *)
Definition vendor_request (s : AnchorBrowser) (c : command) : request :=
  match c with
  | Screenshot => screenshot_request s
  | Click x y button => click_request s x y button
  | TypeText text => type_request s text
  end.

(** Clicks with these buttons go to the base class before anything else. *)
Definition fallback_only (c : command) : bool :=
  match c with
  | Click _ _ button =>
      existsb (String.eqb button) ["back"; "forward"; "wheel"]
  | _ => false
  end.

(** What a command hands back once the base class has answered on the
    vendor path: [screenshot] returns the answer, [click] and [type] drop
    it and return [None]. *)
Definition returned (c : command) (fb : outcome pyval) : outcome pyval :=
  match fb with
  | Ok v => match c with
            | Screenshot => Ok v
            | _ => Ok PNone
            end
  | Raise e => Raise e
  end.

(** The diagnostic printed when the vendor call fails. *)
Definition failure_notice (c : command) (vendor : outcome Response) : string :=
  match vendor, c with
  | Ok r, Screenshot =>
      "Anchor screenshot failed with status " ++ string_of_Z (status_code r)
      ++ ", falling back to standard screenshot"
  | Ok r, Click _ _ _ =>
      "Anchor click failed with status " ++ string_of_Z (status_code r)
      ++ ", falling back to standard click"
  | Ok r, TypeText _ =>
      "Anchor type failed with status " ++ string_of_Z (status_code r)
      ++ ", falling back to standard type"
  | Raise e, Screenshot =>
      "Anchor screenshot failed, falling back to standard screenshot: "
      ++ exn_msg e
  | Raise e, Click _ _ _ =>
      "Anchor click failed, falling back to standard click: " ++ exn_msg e
  | Raise e, TypeText _ =>
      "Anchor type failed, falling back to standard type: " ++ exn_msg e
  end.

(** A vendor call failed: an error status, or an exception that
    [except Exception] catches. *)
Definition vendor_failed (vendor : outcome Response) : bool :=
  match vendor with
  | Ok r => is_error_status r
  | Raise e => is_Exception e
  end.

(** The base class raised, inside the [try], an exception that the
    [except Exception] of the same [try] catches. *)
Definition caught_in_try (vendor : outcome Response) (fb : outcome pyval)
  : bool :=
  match vendor, fb with
  | Ok _, Raise e => is_Exception e
  | _, _ => false
  end.

(** ** Reading a run *)

Definition outcome_of {A : Type}
    (x : outcome A * AnchorBrowser * list event) : outcome A := fst (fst x).

Definition self_after {A : Type}
    (x : outcome A * AnchorBrowser * list event) : AnchorBrowser :=
  snd (fst x).

Definition emitted {A : Type}
    (x : outcome A * AnchorBrowser * list event) : list event := snd x.

Definition super_calls (d : list event) : list base_call :=
  flat_map (fun e => match e with Super c => [c] | _ => [] end) d.

Definition http_calls (d : list event) : list request :=
  flat_map (fun e => match e with Http r => [r] | _ => [] end) d.

Definition printed (d : list event) : list string :=
  flat_map (fun e => match e with Print m => [m] | _ => [] end) d.

(** ** Page events, as Playwright delivers them

    Playwright keeps the page list of a context up to date and then calls
    the registered listeners, once per registration. *)

Inductive page_event : Type :=
| PageOpened (p : Page)
| PageClosed (p : Page).

Definition context0_update (f : list Page -> list Page) (s : AnchorBrowser)
  : AnchorBrowser :=
  match _browser s with
  | Some (mk_browser (mk_context ps :: rest)) =>
      set_browser (Some (mk_browser (mk_context (f ps) :: rest))) s
  | _ => s
  end.

Fixpoint call_times (n : nat) (handler : M unit) : M unit :=
  match n with
  | O => ret tt
  | S n' => handler ;; call_times n' handler
  end.

Definition deliver (ev : page_event) : M unit :=
  match ev with
  | PageOpened p =>
      update (context0_update (fun ps => ps ++ [p])%list) ;;
      s <- self ;;
      call_times (page_listeners s) (_handle_new_page p)
  | PageClosed p =>
      update (context0_update (filter (fun q => negb (Nat.eqb q p)))) ;;
      s <- self ;;
      call_times (count_occ Nat.eq_dec (close_listeners s) p)
        (_handle_page_close p)
  end.

Fixpoint deliver_all (evs : list page_event) : M unit :=
  match evs with
  | [] => ret tt
  | ev :: evs' => deliver ev ;; deliver_all evs'
  end.

(** ** Concrete objects and worlds for the scenarios *)

Definition quiet_world : world :=
  mk_world (fun _ _ => Ok (mk_response 200 "" (JObject [])))
           (fun _ _ => Ok PNone)
           (fun _ _ => Ok (mk_browser [mk_context [0%nat]]))
           (fun _ _ _ => Ok tt).

(** A world whose vendor always answers [vendor] and whose base class
    always answers [fb]. *)
Definition fixed_world (vendor : outcome Response) (fb : outcome pyval)
  : world :=
  mk_world (fun _ _ => vendor) (fun _ _ => fb)
           (fun _ _ => Ok (mk_browser [mk_context [0%nat]]))
           (fun _ _ _ => Ok tt).

Definition fresh_self : AnchorBrowser :=
  mk_self "key" false "https://api.anchorbrowser.io/api"
    "wss://connect.anchorbrowser.io" PNone (1024, 900) true (true, true) true
    15 2 None None 0%nat [].

Definition self_abc123 : AnchorBrowser := set_session_id (PStr "abc123") fresh_self.

(** The two requests of the session lifecycle, as [_get_browser_and_page]
    and [__exit__] build them. *)
Definition create_session_request (s : AnchorBrowser) : request :=
  mk_request POST (base_url s ++ "/sessions") [("anchor-api-key", api_key s)]
    (Some [("width", JInt (fst (dimensions s)));
           ("height", JInt (snd (dimensions s)));
           ("useProxy", JBool (proxy_config s));
           ("solveCaptcha", JBool (captcha_config s));
           ("sessionTimeout", JInt (timeout s));
           ("sessionIdleTimeout", JInt (idle_timeout s));
           ("adBlocker", JBool (fst (adblock_config s)));
           ("popupBlockingActive", JBool (snd (adblock_config s)));
           ("headless", JBool false)]).

Definition delete_session_request (s : AnchorBrowser) : request :=
  mk_request DELETE (base_url s ++ "/sessions/" ++ py_str (session_id s))
    [("anchor-api-key", api_key s)] None.

(** ** What a caller can do with the object, in any order

    A caller that carries on after every outcome reaches the most states. *)
Inductive action : Type :=
| Deliver (ev : page_event)
| Run (c : command)
| Exit.

Definition perform (a : action) : M unit :=
  match a with
  | Deliver ev => deliver ev
  | Run c => run c ;; ret tt
  | Exit => __exit__
  end.

Fixpoint perform_all (actions : list action) (w : world) (h : list event)
    (s : AnchorBrowser) : AnchorBrowser * list event :=
  match actions with
  | [] => (s, [])
  | a :: rest =>
      match perform a w h s with
      | (_, s1, d1) =>
          match perform_all rest w (h ++ d1)%list s1 with
          | (s2, d2) => (s2, (d1 ++ d2)%list)
          end
      end
  end.

(** An object connected to a context with pages 2 and 1, page 1 being the
    active one and having its close listener. *)
Definition self_p1_of_p2_p1 : AnchorBrowser :=
  add_close_listener 1%nat
    (set_page (Some 1%nat)
       (set_browser (Some (mk_browser [mk_context [2%nat; 1%nat]]))
          self_abc123)).

Definition world_session_abc123 : world :=
  mk_world
    (fun _ _ => Ok (mk_response 200 "" (JObject [("id", PStr "abc123")])))
    (fun _ _ => Ok PNone)
    (fun _ _ => Ok (mk_browser [mk_context [0%nat]]))
    (fun _ _ _ => Ok tt).

Definition world_200_base64 : world :=
  fixed_world (Ok (mk_response 200 "BASE64DATA" JInvalid)) (Ok (PStr "FALLBACK")).

Definition world_500 : world :=
  fixed_world (Ok (mk_response 500 "" JInvalid)) (Ok (PStr "FALLBACK")).

Definition world_304 : world :=
  fixed_world (Ok (mk_response 304 "IMG" JInvalid)) (Ok (PStr "FALLBACK")).

Definition world_500_closed_page : world :=
  fixed_world (Ok (mk_response 500 "" JInvalid))
    (Raise (mk_exn PlaywrightError "Target page has been closed")).

(** ** The vendor path of a command, case by case

    What [run c] comes to once the session identifier is set and the button
    is one the vendor is asked about: the table of the [try] block. *)
Definition vendor_path (c : command) : M pyval :=
  fun w h s =>
    let req := vendor_request s c in
    let call := fallback_of c in
    let vendor := requests_send w h req in
    let notice := Print (failure_notice c vendor) in
    match vendor with
    | Ok r =>
        if ok r then
          (Ok (match c with Screenshot => PStr (text r) | _ => PNone end),
           s, [Http req])
        else
          match super_call w (h ++ [Http req; notice])%list call with
          | Ok v => (returned c (Ok v), s, [Http req; notice; Super call])
          | Raise e =>
              if is_Exception e then
                let again := Print (failure_notice c (Raise e)) in
                (returned c
                   (super_call w
                      (h ++ [Http req; notice; Super call; again])%list call),
                 s, [Http req; notice; Super call; again; Super call])
              else (Raise e, s, [Http req; notice; Super call])
          end
    | Raise e =>
        if is_Exception e then
          (returned c (super_call w (h ++ [Http req; notice])%list call),
           s, [Http req; notice; Super call])
        else (Raise e, s, [Http req])
    end.

(** ** Session creation, case by case

    What [_get_browser_and_page] comes to: the table of its failure points,
    in the order the source reaches them. *)
Definition creation_path : M (Browser * Page) :=
  fun w h s =>
    let req := create_session_request s in
    match requests_send w h req with
    | Raise e => (Raise e, s, [Http req])
    | Ok r =>
        if is_error_status r then
          (Raise (mk_exn HTTPError (string_of_Z (status_code r))), s,
           [Http req])
        else
          match body r with
          | JInvalid =>
              (Raise (mk_exn JSONDecodeError "Expecting value"), s, [Http req])
          | JNotObject =>
              (Raise (mk_exn AttributeError "object has no attribute 'get'"),
               s, [Http req])
          | JObject fields =>
              let id := match dict_get "id" fields with
                        | Some v => v
                        | None => PNone
                        end in
              let s1 := set_session_id id s in
              if truthy id then
                let endpoint := base_ws_url s ++ "/?sessionId=" ++ py_str id in
                let connect := [Http req; ConnectOverCdp endpoint] in
                match connect_over_cdp w (h ++ [Http req])%list endpoint with
                | Raise e => (Raise e, s1, connect)
                | Ok browser =>
                    match contexts browser with
                    | [] =>
                        (Raise (mk_exn IndexError "list index out of range"),
                         s1, connect)
                    | context :: _ =>
                        match pages context with
                        | [] =>
                            (Raise (mk_exn IndexError
                                      "list index out of range"),
                             add_page_listener s1, connect)
                        | page :: _ =>
                            let url := "https://bing.com" in
                            match page_goto w (h ++ connect)%list page url with
                            | Ok _ =>
                                (Ok (browser, page), add_page_listener s1,
                                 (connect ++ [Goto page url])%list)
                            | Raise e =>
                                (Raise e, add_page_listener s1,
                                 (connect ++ [Goto page url])%list)
                            end
                        end
                    end
                end
              else
                (Raise (mk_exn ValueError
                          "Failed to create Anchor browser session"),
                 s1, [Http req])
          end
    end.

(** [String.prefix] on requests: every URL starts at [base_url]. *)
Definition authenticated (s : AnchorBrowser) (r : request) : Prop :=
  req_headers r = [("anchor-api-key", api_key s)] /\
  String.prefix (base_url s) (req_url r) = true.

(** The page list of the first context, as the object sees it. *)
Definition context0_pages (s : AnchorBrowser) : option (list Page) :=
  match _browser s with
  | Some b =>
      match contexts b with
      | ctx :: _ => Some (pages ctx)
      | [] => None
      end
  | None => None
  end.

(** ** The direct path of a command

    What [run c] comes to when the command goes straight to the base class:
    a click with a navigation button, or any command without a session. *)
Definition no_session_notice (c : command) : list event :=
  if fallback_only c then []
  else
    match c with
    | Screenshot =>
        [Print "No active session, falling back to standard screenshot"]
    | Click _ _ _ => [Print "No active session, falling back to standard click"]
    | TypeText _ => [Print "No active session, falling back to standard type"]
    end.

Definition direct_path (c : command) : M pyval :=
  fun w h s =>
    (super_call w (h ++ no_session_notice c)%list (fallback_of c), s,
     (no_session_notice c ++ [Super (fallback_of c)])%list).

(** An object right after connection: one new-page listener, pages 0 and
    2 in the context, page 0 active. *)
Definition self_connected : AnchorBrowser :=
  add_page_listener
    (set_page (Some 0%nat)
       (set_browser (Some (mk_browser [mk_context [0%nat; 2%nat]]))
          self_abc123)).

(** The object right after [__enter__] on a session with one page: page 0
    is the active page and the only page of the context. *)
Definition self_entered : AnchorBrowser :=
  self_after (__enter__ world_session_abc123 [] fresh_self).

Definition all_pages_closed_warning : string :=
  "Warning: All pages have been closed.".

(** * Proofs *)

(** The diagnostics stay as the source writes them. *)
#[local] Arguments String.append : simpl never.
#[local] Arguments string_of_Z : simpl never.

Ltac unfold_run :=
  unfold run, screenshot, click, type, __exit__, _handle_new_page,
    _handle_page_close, browser_context0_pages, getitem, bind, try_except,
    self, update, print, requests, super, ret, raise, outcome_of, self_after,
    emitted in *.

(** Histories are built by appending; this puts them in one shape. *)
Ltac norm_history :=
  repeat rewrite app_nil_r in *;
  repeat rewrite <- app_assoc in *;
  simpl in *.

Lemma ok_error_status (r : Response) :
  is_error_status r = true -> ok r = false.
Proof. unfold ok. intros ->. reflexivity. Qed.

Lemma success_is_ok (r : Response) :
  200 <= status_code r < 300 -> ok r = true.
Proof.
  intros H. unfold ok, is_error_status.
  destruct (400 <=? status_code r) eqn:E; [ | reflexivity ].
  apply Z.leb_le in E. lia.
Qed.

(** ** The vendor path *)

Ltac known_oracles :=
  repeat match goal with
    | H : requests_send _ _ _ = _ |- _ => rewrite H; simpl; norm_history
    | H : super_call _ _ _ = _ |- _ => rewrite H; simpl; norm_history
    | H : is_Exception _ = _ |- _ => rewrite H; simpl; norm_history
    | H : ok _ = _ |- _ => rewrite H; simpl; norm_history
    end.

Ltac case_oracle :=
  match goal with
  | |- context [match requests_send ?w ?h ?r with _ => _ end] =>
      destruct (requests_send w h r) eqn:?
  | |- context [match super_call ?w ?h ?c with _ => _ end] =>
      destruct (super_call w h c) eqn:?
  | |- context [if is_Exception ?e then _ else _] =>
      destruct (is_Exception e) eqn:?
  | |- context [ok ?r] => destruct (ok r) eqn:?
  end; simpl; norm_history; known_oracles.

Ltac finish_path :=
  unfold returned;
  repeat match goal with
    | |- context [match super_call ?w ?h ?c with _ => _ end] =>
        destruct (super_call w h c)
    end;
  try reflexivity.

Lemma run_vendor_path (c : command) (w : world) (h : list event)
    (s : AnchorBrowser) :
  truthy (session_id s) = true ->
  fallback_only c = false ->
  run c w h s = vendor_path c w h s.
Proof.
  intros Hs Hb. unfold vendor_path.
  destruct c as [ | cx cy button | txt ]; unfold fallback_only in Hb.
  - unfold_run. simpl. rewrite Hs. simpl. norm_history.
    repeat case_oracle; finish_path.
  - unfold run, click. rewrite Hb.
    unfold_run. simpl. rewrite Hs. simpl. norm_history.
    repeat case_oracle; finish_path.
  - unfold_run. simpl. rewrite Hs. simpl. norm_history.
    repeat case_oracle; finish_path.
Qed.

(** ** Commands without a session *)

(** C2. With [self.session_id] equal to [None], each of [screenshot],
    [click] and [type] calls the matching operation of the base class
    exactly once, sends no HTTP request, and ends exactly as that call ends:
    no error arises from the missing session.  The object is unchanged. *)
Theorem no_session_delegates_once
    (c : command) (w : world) (h : list event) (s : AnchorBrowser) :
  session_id s = PNone ->
  let x := run c w h s in
  super_calls (emitted x) = [fallback_of c] /\
  http_calls (emitted x) = [] /\
  outcome_of x = super_call w (h ++ removelast (emitted x))%list (fallback_of c) /\
  self_after x = s.
Proof.
  intros Hs x. subst x.
  destruct c as [ | cx cy button | txt ].
  - unfold_run. simpl. rewrite Hs. simpl. norm_history.
    repeat split; reflexivity.
  - unfold run, click.
    destruct (existsb (String.eqb button) _) eqn:E; unfold_run; simpl.
    + norm_history. repeat split; reflexivity.
    + rewrite Hs. simpl. norm_history. repeat split; reflexivity.
  - unfold_run. simpl. rewrite Hs. simpl. norm_history.
    repeat split; reflexivity.
Qed.

Lemma no_session_delegates_once_witness :
  session_id fresh_self = PNone /\
  super_calls (emitted (run (TypeText "hello") quiet_world [] fresh_self))
  = [BType "hello"].
Proof.
  split; [ reflexivity | ].
  apply (no_session_delegates_once (TypeText "hello") quiet_world [] fresh_self).
  reflexivity.
Defined.

(** ** Buttons the vendor does not know *)

(** C5. A click with button "back", "forward" or "wheel", whatever the
    session identifier is, sends no HTTP request and calls [click] of the
    base class, once, with the same arguments; it ends as that call ends. *)
Theorem navigation_buttons_bypass_vendor
    (x y : Z) (button : string) (w : world) (h : list event)
    (s : AnchorBrowser) :
  In button ["back"; "forward"; "wheel"] ->
  let r := click x y button w h s in
  http_calls (emitted r) = [] /\
  super_calls (emitted r) = [BClick x y button] /\
  outcome_of r = super_call w h (BClick x y button) /\
  self_after r = s.
Proof.
  intros Hb r. subst r.
  assert (E : existsb (String.eqb button) ["back"; "forward"; "wheel"] = true).
  { apply existsb_exists. exists button. split; [ exact Hb | ].
    apply String.eqb_refl. }
  unfold_run. rewrite E. simpl. auto.
Qed.

Lemma navigation_buttons_bypass_vendor_witness :
  In "wheel" ["back"; "forward"; "wheel"] /\
  http_calls (emitted (click 10 20 "wheel" quiet_world [] self_abc123)) = [].
Proof.
  split; [ simpl; auto | ].
  apply (navigation_buttons_bypass_vendor 10 20 "wheel" quiet_world []
           self_abc123).
  simpl; auto.
Defined.

(** ** A successful vendor screenshot *)

(** C6. With a session identifier and a 2xx answer of the vendor's
    screenshot endpoint, [screenshot] returns the response body as it came,
    after exactly one GET to that endpoint and without any call to the base
    class. *)
Theorem screenshot_success_returns_body
    (w : world) (h : list event) (s : AnchorBrowser) (r : Response) :
  truthy (session_id s) = true ->
  requests_send w h (screenshot_request s) = Ok r ->
  200 <= status_code r < 300 ->
  let x := screenshot w h s in
  outcome_of x = Ok (PStr (text r)) /\
  super_calls (emitted x) = [] /\
  http_calls (emitted x) = [screenshot_request s] /\
  self_after x = s.
Proof.
  intros Hs Hv Hst x. subst x.
  apply success_is_ok in Hst.
  unfold_run. simpl. rewrite Hs. simpl. norm_history.
  rewrite Hv. simpl. rewrite Hst. simpl. auto.
Qed.

Lemma screenshot_success_returns_body_witness :
  truthy (session_id self_abc123) = true /\
  requests_send world_200_base64 [] (screenshot_request self_abc123)
  = Ok (mk_response 200 "BASE64DATA" JInvalid) /\
  200 <= status_code (mk_response 200 "BASE64DATA" JInvalid) < 300 /\
  outcome_of (screenshot world_200_base64 [] self_abc123)
  = Ok (PStr "BASE64DATA") /\
  super_calls (emitted (screenshot world_200_base64 [] self_abc123)) = [].
Proof.
  split; [ reflexivity | split; [ reflexivity | split; [ simpl; lia | ] ] ].
  destruct (screenshot_success_returns_body world_200_base64 [] self_abc123
              (mk_response 200 "BASE64DATA" JInvalid))
    as (H1 & H2 & _).
  - reflexivity.
  - reflexivity.
  - simpl. lia.
  - split; [ exact H1 | exact H2 ].
Defined.

(** ** Vendor failures *)

(** C1, as amended.  With a session identifier, and for a click a button
    the vendor is asked about: when the vendor answers with a 4xx or 5xx
    status (the answers for which [response.ok] is false), or when the
    vendor call raises an exception that [except Exception] catches, the
    command has sent exactly one request to the vendor; and unless the base
    class itself raised, inside the [try], an exception that the same
    [except Exception] catches, the command calls the operation of the base
    class exactly once and ends as that call ends ([click] and [type]
    returning [None]), so the vendor's error never reaches the caller. *)
Theorem vendor_failure_falls_back_once
    (c : command) (w : world) (h : list event) (s : AnchorBrowser) :
  truthy (session_id s) = true ->
  fallback_only c = false ->
  let req := vendor_request s c in
  let vendor := requests_send w h req in
  let fb := super_call w (h ++ [Http req; Print (failure_notice c vendor)])%list
              (fallback_of c) in
  vendor_failed vendor = true ->
  caught_in_try vendor fb = false ->
  let x := run c w h s in
  http_calls (emitted x) = [req] /\
  super_calls (emitted x) = [fallback_of c] /\
  outcome_of x = returned c fb /\
  self_after x = s.
Proof.
  intros Hs Hb req vendor fb Hfail Hcaught x.
  subst x. rewrite (run_vendor_path c w h s Hs Hb).
  unfold vendor_path. fold req. fold vendor. fold fb.
  unfold vendor_failed in Hfail. unfold caught_in_try in Hcaught.
  destruct vendor as [r | e].
  - rewrite (ok_error_status r Hfail).
    destruct fb as [v | e].
    + unfold outcome_of, self_after, emitted. simpl. auto.
    + rewrite Hcaught. unfold outcome_of, self_after, emitted. simpl. auto.
  - rewrite Hfail. unfold outcome_of, self_after, emitted. simpl. auto.
Qed.

Lemma vendor_failure_falls_back_once_witness :
  truthy (session_id self_abc123) = true /\
  fallback_only Screenshot = false /\
  vendor_failed
    (requests_send world_500 [] (vendor_request self_abc123 Screenshot))
  = true /\
  http_calls (emitted (run Screenshot world_500 [] self_abc123))
  = [screenshot_request self_abc123] /\
  super_calls (emitted (run Screenshot world_500 [] self_abc123))
  = [BScreenshot] /\
  outcome_of (run Screenshot world_500 [] self_abc123) = Ok (PStr "FALLBACK").
Proof.
  split; [ reflexivity | split; [ reflexivity | split; [ reflexivity | ] ] ].
  destruct (vendor_failure_falls_back_once Screenshot world_500 [] self_abc123
              eq_refl eq_refl eq_refl eq_refl) as (H1 & H2 & H3 & _).
  split; [ exact H1 | split; [ exact H2 | exact H3 ] ].
Defined.

(** C1, as stated, fails twice over.  A 304 answer is outside 2xx, yet
    [response.ok] holds for it: [screenshot] returns its body and the base
    class is never called.  And when the answer is a 500 and the base class
    raises a Playwright error, that error is caught by the [except] of the
    same [try], and the base class is called a second time. *)
Lemma vendor_failure_counterexample :
  (truthy (session_id self_abc123) = true /\
   requests_send world_304 [] (screenshot_request self_abc123)
   = Ok (mk_response 304 "IMG" JInvalid) /\
   ~ (200 <= status_code (mk_response 304 "IMG" JInvalid) < 300) /\
   super_calls (emitted (run Screenshot world_304 [] self_abc123)) = [] /\
   outcome_of (run Screenshot world_304 [] self_abc123) = Ok (PStr "IMG"))
  /\
  (requests_send world_500_closed_page []
     (click_request self_abc123 10 20 "left")
   = Ok (mk_response 500 "" JInvalid) /\
   ~ (200 <= status_code (mk_response 500 "" JInvalid) < 300) /\
   super_calls
     (emitted (run (Click 10 20 "left") world_500_closed_page [] self_abc123))
   = [BClick 10 20 "left"; BClick 10 20 "left"]).
Proof.
  repeat split; try reflexivity; simpl; lia.
Qed.

(** The second half of the above in general: an error status followed by a
    base class that raises a catchable exception makes two calls to the base
    class, and one request to the vendor. *)
Lemma fallback_raising_in_try_is_called_twice
    (c : command) (w : world) (h : list event) (s : AnchorBrowser) :
  truthy (session_id s) = true ->
  fallback_only c = false ->
  let req := vendor_request s c in
  let vendor := requests_send w h req in
  let fb := super_call w (h ++ [Http req; Print (failure_notice c vendor)])%list
              (fallback_of c) in
  vendor_failed vendor = true ->
  caught_in_try vendor fb = true ->
  let x := run c w h s in
  http_calls (emitted x) = [req] /\
  super_calls (emitted x) = [fallback_of c; fallback_of c].
Proof.
  intros Hs Hb req vendor fb Hfail Hcaught x.
  subst x. rewrite (run_vendor_path c w h s Hs Hb).
  unfold vendor_path. fold req. fold vendor. fold fb.
  unfold vendor_failed in Hfail. unfold caught_in_try in Hcaught.
  destruct vendor as [r | e]; [ | discriminate ].
  rewrite (ok_error_status r Hfail).
  destruct fb as [v | e]; [ discriminate | ].
  rewrite Hcaught. unfold emitted. simpl. auto.
Qed.

(** ** Typing through the vendor *)

(** C8. With a session identifier, [type(text)] sends one request, and
    sends it first: a POST to the keyboard-type endpoint of the session
    whose body carries the text and a delay of 30. *)
Theorem type_posts_text_with_delay_30
    (txt : string) (w : world) (h : list event) (s : AnchorBrowser) :
  truthy (session_id s) = true ->
  let req :=
    mk_request POST
      (base_url s ++ "/sessions/" ++ py_str (session_id s) ++ "/keyboard/type")
      [("anchor-api-key", api_key s)]
      (Some [("text", JStr txt); ("delay", JInt 30)]) in
  let x := type txt w h s in
  hd_error (emitted x) = Some (Http req) /\
  http_calls (emitted x) = [req].
Proof.
  intros Hs req x. subst x.
  change (type txt w h s) with (run (TypeText txt) w h s).
  rewrite (run_vendor_path (TypeText txt) w h s Hs eq_refl).
  unfold vendor_path.
  change (vendor_request s (TypeText txt)) with req.
  destruct (requests_send w h req) as [r | e].
  - destruct (ok r); [ split; reflexivity | ].
    destruct (super_call w _ _) as [v | e].
    + split; reflexivity.
    + destruct (is_Exception e); split; reflexivity.
  - destruct (is_Exception e); split; reflexivity.
Qed.

Lemma type_posts_text_with_delay_30_witness :
  truthy (session_id self_abc123) = true /\
  http_calls (emitted (type "hello" quiet_world [] self_abc123))
  = [mk_request POST
       "https://api.anchorbrowser.io/api/sessions/abc123/keyboard/type"
       [("anchor-api-key", "key")]
       (Some [("text", JStr "hello"); ("delay", JInt 30)])].
Proof.
  split; [ reflexivity | ].
  apply (type_posts_text_with_delay_30 "hello" quiet_world [] self_abc123).
  reflexivity.
Defined.

(** ** Buttons outside the documented five *)

Lemma unknown_button_not_fallback_only (button : string) :
  ~ In button ["left"; "right"; "back"; "forward"; "wheel"] ->
  existsb (String.eqb button) ["back"; "forward"; "wheel"] = false /\
  dict_get button button_mapping = None.
Proof.
  intros H. simpl in H.
  assert (Hl : (button =? "left")%string = false)
    by (apply String.eqb_neq; intros ->; tauto).
  assert (Hr : (button =? "right")%string = false)
    by (apply String.eqb_neq; intros ->; tauto).
  assert (Hk : (button =? "back")%string = false)
    by (apply String.eqb_neq; intros ->; tauto).
  assert (Hf : (button =? "forward")%string = false)
    by (apply String.eqb_neq; intros ->; tauto).
  assert (Hw : (button =? "wheel")%string = false)
    by (apply String.eqb_neq; intros ->; tauto).
  split; simpl.
  - rewrite Hk, Hf, Hw. reflexivity.
  - rewrite Hl, Hr. reflexivity.
Qed.

(** C9. With a session identifier, a click with a button outside "left",
    "right", "back", "forward" and "wheel" is not handed to the base class:
    the first thing it does is one POST to the mouse-click endpoint with the
    button field "left", and when the vendor accepts it the base class is
    never called and [click] returns [None]. *)
Theorem unknown_button_is_sent_as_left
    (cx cy : Z) (button : string) (w : world) (h : list event)
    (s : AnchorBrowser) :
  truthy (session_id s) = true ->
  ~ In button ["left"; "right"; "back"; "forward"; "wheel"] ->
  let req :=
    mk_request POST
      (base_url s ++ "/sessions/" ++ py_str (session_id s) ++ "/mouse/click")
      [("anchor-api-key", api_key s)]
      (Some [("x", JInt cx); ("y", JInt cy); ("button", JStr "left")]) in
  let x := click cx cy button w h s in
  hd_error (emitted x) = Some (Http req) /\
  http_calls (emitted x) = [req] /\
  (forall r, requests_send w h req = Ok r -> ok r = true ->
     super_calls (emitted x) = [] /\ outcome_of x = Ok PNone).
Proof.
  intros Hs Hb req x. subst x.
  destruct (unknown_button_not_fallback_only button Hb) as [Hnav Hmap].
  change (click cx cy button w h s) with (run (Click cx cy button) w h s).
  rewrite (run_vendor_path (Click cx cy button) w h s Hs Hnav).
  unfold vendor_path.
  assert (Hreq : vendor_request s (Click cx cy button) = req).
  { unfold vendor_request, click_request. rewrite Hmap. reflexivity. }
  rewrite Hreq.
  destruct (requests_send w h req) as [r | e].
  - destruct (ok r) eqn:Hok.
    + split; [ reflexivity | split; [ reflexivity | ] ].
      intros r' _ _. split; reflexivity.
    + assert (Hno : forall r' : Response, Ok r = Ok r' -> ok r' = true -> False).
      { intros r' E Hok'. inversion E; subst. congruence. }
      destruct (super_call w _ _) as [v | e].
      * split; [ reflexivity | split; [ reflexivity | ] ].
        intros r' E Hok'. destruct (Hno r' E Hok').
      * destruct (is_Exception e);
          (split; [ reflexivity | split; [ reflexivity | ] ]);
          intros r' E Hok'; destruct (Hno r' E Hok').
  - destruct (is_Exception e);
      (split; [ reflexivity | split; [ reflexivity | ] ]);
      intros r' E; discriminate.
Qed.

Lemma unknown_button_is_sent_as_left_witness :
  truthy (session_id self_abc123) = true /\
  ~ In "middle" ["left"; "right"; "back"; "forward"; "wheel"] /\
  http_calls (emitted (click 10 20 "middle" quiet_world [] self_abc123))
  = [mk_request POST
       "https://api.anchorbrowser.io/api/sessions/abc123/mouse/click"
       [("anchor-api-key", "key")]
       (Some [("x", JInt 10); ("y", JInt 20); ("button", JStr "left")])] /\
  super_calls (emitted (click 10 20 "middle" quiet_world [] self_abc123)) = [].
Proof.
  assert (Hb : ~ In "middle" ["left"; "right"; "back"; "forward"; "wheel"]).
  { simpl. intros [H | [H | [H | [H | [H | []]]]]]; discriminate. }
  split; [ reflexivity | split; [ exact Hb | ] ].
  destruct (unknown_button_is_sent_as_left 10 20 "middle" quiet_world []
              self_abc123 eq_refl Hb) as (_ & H1 & H2).
  split; [ exact H1 | ].
  exact (proj1 (H2 (mk_response 200 "" (JObject [])) eq_refl eq_refl)).
Defined.

(** ** Teardown *)

Lemma exit_without_session (w : world) (h : list event) (s : AnchorBrowser) :
  truthy (session_id s) = false ->
  __exit__ w h s = (Ok tt, s, []).
Proof.
  intros Hs. unfold_run. simpl. rewrite Hs. reflexivity.
Qed.

Lemma exit_with_session (w : world) (h : list event) (s : AnchorBrowser)
    (r : Response) :
  truthy (session_id s) = true ->
  requests_send w h (delete_session_request s) = Ok r ->
  __exit__ w h s =
  (Ok tt, set_session_id PNone s,
   Http (delete_session_request s)
   :: (if debug s
       then [Print ("Ended Anchor session: " ++ py_str (session_id s))]
       else [])).
Proof.
  intros Hs Hr. unfold_run. simpl. rewrite Hs. simpl. norm_history.
  unfold delete_session_request, anchor_headers in *. rewrite Hr. simpl.
  destruct (debug s); reflexivity.
Qed.

(** When the delete request itself raises, [__exit__] raises too and the
    identifier stays, so a second [__exit__] sends the request again. *)
Lemma exit_delete_raises (w : world) (h : list event) (s : AnchorBrowser)
    (e : exn) :
  truthy (session_id s) = true ->
  requests_send w h (delete_session_request s) = Raise e ->
  __exit__ w h s = (Raise e, s, [Http (delete_session_request s)]).
Proof.
  intros Hs Hr. unfold_run. simpl. rewrite Hs. simpl. norm_history.
  unfold delete_session_request, anchor_headers in *. rewrite Hr. reflexivity.
Qed.

(** C4. With an active session whose delete request is answered (with any
    status), two calls of [__exit__] in a row send exactly one DELETE to
    the session's endpoint; the first clears [self.session_id] to [None],
    and the second does nothing at all and returns normally. *)
Theorem teardown_twice_deletes_once
    (w : world) (h : list event) (s : AnchorBrowser) (r : Response) :
  truthy (session_id s) = true ->
  requests_send w h (delete_session_request s) = Ok r ->
  let first := __exit__ w h s in
  let second := __exit__ w (h ++ emitted first)%list (self_after first) in
  http_calls (emitted first ++ emitted second) = [delete_session_request s] /\
  outcome_of first = Ok tt /\
  session_id (self_after first) = PNone /\
  outcome_of second = Ok tt /\
  emitted second = [] /\
  self_after second = self_after first.
Proof.
  intros Hs Hr first second. subst second first.
  rewrite (exit_with_session w h s r Hs Hr).
  unfold outcome_of, self_after, emitted. simpl.
  destruct (debug s); simpl; repeat split; reflexivity.
Qed.

Lemma teardown_twice_deletes_once_witness :
  truthy (session_id self_abc123) = true /\
  requests_send quiet_world [] (delete_session_request self_abc123)
  = Ok (mk_response 200 "" (JObject [])) /\
  http_calls
    (emitted (__exit__ quiet_world [] self_abc123)
     ++ emitted (__exit__ quiet_world
                   ([] ++ emitted (__exit__ quiet_world [] self_abc123))
                   (self_after (__exit__ quiet_world [] self_abc123))))%list
  = [mk_request DELETE "https://api.anchorbrowser.io/api/sessions/abc123"
       [("anchor-api-key", "key")] None].
Proof.
  split; [ reflexivity | split; [ reflexivity | ] ].
  apply (teardown_twice_deletes_once quiet_world [] self_abc123
           (mk_response 200 "" (JObject []))); reflexivity.
Defined.

(** ** Commands leave the object alone *)

Lemma run_keeps_self (c : command) (w : world) (h : list event)
    (s : AnchorBrowser) :
  self_after (run c w h s) = s.
Proof.
  destruct (fallback_only c) eqn:Hb.
  - destruct c as [ | cx cy button | txt ]; try discriminate.
    unfold fallback_only in Hb. unfold run, click. rewrite Hb. reflexivity.
  - destruct (truthy (session_id s)) eqn:Hs.
    + rewrite (run_vendor_path c w h s Hs Hb). unfold vendor_path.
      destruct (requests_send w h (vendor_request s c)) as [r | e].
      * destruct (ok r); [ reflexivity | ].
        destruct (super_call w _ _) as [v | e]; [ reflexivity | ].
        destruct (is_Exception e); reflexivity.
      * destruct (is_Exception e); reflexivity.
    + destruct c as [ | cx cy button | txt ]; unfold fallback_only in Hb.
      * unfold_run. simpl. rewrite Hs. reflexivity.
      * unfold run, click. rewrite Hb. unfold_run. simpl. rewrite Hs.
        reflexivity.
      * unfold_run. simpl. rewrite Hs. reflexivity.
Qed.

Lemma handle_new_page_effect (p : Page) (w : world) (h : list event)
    (s : AnchorBrowser) :
  _handle_new_page p w h s =
  (Ok tt, add_close_listener p (set_page (Some p) s),
   [Print "New page created"]).
Proof. reflexivity. Qed.

Lemma last_item_cons {A : Type} (a : A) (l : list A) :
  exists q, last_item (a :: l) = Some q.
Proof.
  revert a. induction l as [ | b l IH ]; intros a.
  - exists a. reflexivity.
  - destruct (IH b) as [q Hq]. exists q. exact Hq.
Qed.

Lemma last_item_last {A : Type} (l : list A) (d : A) :
  l <> [] -> last_item l = Some (last l d).
Proof.
  induction l as [ | a l IH ]; intros Hne; [ congruence | ].
  destruct l as [ | b l ]; [ reflexivity | ].
  change (last_item (a :: b :: l)) with (last_item (b :: l)).
  change (last (a :: b :: l) d) with (last (b :: l) d).
  apply IH. discriminate.
Qed.

(** [_handle_page_close], case by case. *)
Lemma handle_page_close_cases (p : Page) (w : world) (h : list event)
    (s : AnchorBrowser) :
  _handle_page_close p w h s =
  if page_is (_page s) p then
    match _browser s with
    | None =>
        (Raise (mk_exn AttributeError
                  "'NoneType' object has no attribute 'contexts'"),
         s, [Print "Page closed"])
    | Some b =>
        match contexts b with
        | [] =>
            (Raise (mk_exn IndexError "list index out of range"), s,
             [Print "Page closed"])
        | ctx :: _ =>
            match last_item (pages ctx) with
            | Some q => (Ok tt, set_page (Some q) s, [Print "Page closed"])
            | None =>
                (Ok tt, set_page None s,
                 [Print "Page closed";
                  Print "Warning: All pages have been closed."])
            end
        end
    end
  else (Ok tt, s, [Print "Page closed"]).
Proof.
  destruct s as [k dbg bu bw sid dims px ad cap t it br pg pl cl].
  unfold_run. simpl.
  destruct (page_is pg p); [ | reflexivity ].
  destruct br as [[ctxs] | ]; [ | reflexivity ].
  destruct ctxs as [ | [ps] rest ]; [ reflexivity | ].
  destruct ps as [ | p1 ps ]; [ reflexivity | ].
  destruct (last_item_cons p1 ps) as [q Hl].
  remember (p1 :: ps) as l eqn:El.
  assert (Hne : nonempty l = true) by (subst l; reflexivity).
  clear El. simpl. rewrite Hne. simpl. rewrite Hl. reflexivity.
Qed.

(** [_handle_page_close] writes [self._page] and nothing else. *)
Lemma handle_page_close_frame (p : Page) (w : world) (h : list event)
    (s : AnchorBrowser) :
  exists q, self_after (_handle_page_close p w h s) = set_page q s.
Proof.
  rewrite handle_page_close_cases.
  assert (Hsame : s = set_page (_page s) s) by (destruct s; reflexivity).
  destruct (page_is (_page s) p); [ | exists (_page s); exact Hsame ].
  destruct (_browser s) as [b | ]; [ | exists (_page s); exact Hsame ].
  destruct (contexts b) as [ | ctx rest ]; [ exists (_page s); exact Hsame | ].
  destruct (last_item (pages ctx)) as [q | ].
  - exists (Some q). reflexivity.
  - exists None. reflexivity.
Qed.

(** ** Session creation *)

(** C7. When the vendor answers the create request: an unsuccessful
    answer makes [_get_browser_and_page] raise [HTTPError] and leaves
    [self.session_id] as it was; a successful answer whose JSON object has
    no "id" makes it raise [ValueError]; and a successful answer with an
    "id" puts that value in [self.session_id], whatever happens afterwards
    in the call.  No command and no page handler writes [self.session_id]
    later on. *)
Theorem session_creation_stores_or_fails
    (w : world) (h : list event) (s : AnchorBrowser) (r : Response) :
  requests_send w h (create_session_request s) = Ok r ->
  let x := _get_browser_and_page w h s in
  (ok r = false ->
   outcome_of x = Raise (mk_exn HTTPError (string_of_Z (status_code r))) /\
   session_id (self_after x) = session_id s) /\
  (forall fields,
     ok r = true -> body r = JObject fields -> dict_get "id" fields = None ->
     outcome_of x
     = Raise (mk_exn ValueError "Failed to create Anchor browser session")) /\
  (forall fields v,
     ok r = true -> body r = JObject fields -> dict_get "id" fields = Some v ->
     session_id (self_after x) = v) /\
  (forall c w' h' s',
     session_id (self_after (run c w' h' s')) = session_id s') /\
  (forall p w' h' s',
     session_id (self_after (_handle_new_page p w' h' s')) = session_id s' /\
     session_id (self_after (_handle_page_close p w' h' s')) = session_id s').
Proof.
  intros Hr x.
  split; [ | split; [ | split; [ | split ] ] ];
    [ | |
      | intros c w' h' s'; rewrite run_keeps_self; reflexivity
      | intros p w' h' s'; split;
        [ rewrite handle_new_page_effect; reflexivity
        | destruct (handle_page_close_frame p w' h' s') as [q ->];
          reflexivity ] ].
  all: assert (Hx : x = _get_browser_and_page w h s) by reflexivity;
    clearbody x;
    unfold _get_browser_and_page, raise_for_status, json_get_id,
      chromium_connect_over_cdp, goto in Hx;
    unfold create_session_request in Hr;
    unfold_run; simpl in Hx; norm_history;
    destruct (dimensions s) as [width height] eqn:Hd;
    simpl in Hr, Hx; unfold anchor_headers in Hx;
    rewrite Hr in Hx; simpl in Hx;
    unfold ok.
  - intros Hok. apply negb_false_iff in Hok. rewrite Hok in Hx.
    subst x. split; reflexivity.
  - intros fields Hok Hbody Hid. apply negb_true_iff in Hok.
    rewrite Hok, Hbody in Hx. simpl in Hx. rewrite Hid in Hx.
    subst x. reflexivity.
  - intros fields v Hok Hbody Hid. apply negb_true_iff in Hok.
    rewrite Hok, Hbody in Hx. simpl in Hx. rewrite Hid in Hx.
    simpl in Hx. subst x.
    destruct (truthy v); simpl; [ | reflexivity ].
    destruct (connect_over_cdp w _ _) as [[ctxs] | e]; simpl;
      [ | reflexivity ].
    destruct ctxs as [ | [ps] rest ]; simpl; [ reflexivity | ].
    destruct ps as [ | p0 ps ]; simpl; [ reflexivity | ].
    destruct (page_goto w _ _ _); reflexivity.
Qed.

Lemma session_creation_stores_or_fails_witness :
  requests_send world_session_abc123 [] (create_session_request fresh_self)
  = Ok (mk_response 200 "" (JObject [("id", PStr "abc123")])) /\
  session_id (self_after (_get_browser_and_page world_session_abc123 []
                            fresh_self))
  = PStr "abc123".
Proof.
  split; [ reflexivity | ].
  destruct (session_creation_stores_or_fails world_session_abc123 [] fresh_self
              (mk_response 200 "" (JObject [("id", PStr "abc123")])) eq_refl)
    as (_ & _ & Hstore & _).
  apply (Hstore [("id", PStr "abc123")]); reflexivity.
Defined.

(** ** The page tracker *)

Lemma page_is_same (p : Page) : page_is (Some p) p = true.
Proof. simpl. apply Nat.eqb_refl. Qed.

Lemma page_is_other (current : option Page) (p : Page) :
  current <> Some p -> page_is current p = false.
Proof.
  destruct current as [q | ]; simpl; intros H; [ | reflexivity ].
  apply Nat.eqb_neq. congruence.
Qed.

(** The handler called on its own, whoever calls it: when [p] is the
    active page and the page list of the first context is not empty, the
    active page becomes the last page of that list; when [p] is the active
    page and that list is empty, the active page becomes [None] and the
    warning is printed; when [p] is not the active page, the object is
    unchanged.  Which close events reach the handler is settled further
    down, with [deliver]. *)
Theorem page_close_transition
    (p : Page) (w : world) (h : list event) (s : AnchorBrowser) :
  let x := _handle_page_close p w h s in
  (forall b ctx rest,
     _page s = Some p -> _browser s = Some b -> contexts b = ctx :: rest ->
     pages ctx <> [] ->
     outcome_of x = Ok tt /\
     _page (self_after x) = Some (last (pages ctx) p) /\
     printed (emitted x) = ["Page closed"]) /\
  (forall b ctx rest,
     _page s = Some p -> _browser s = Some b -> contexts b = ctx :: rest ->
     pages ctx = [] ->
     outcome_of x = Ok tt /\
     _page (self_after x) = None /\
     printed (emitted x)
     = ["Page closed"; "Warning: All pages have been closed."]) /\
  (_page s <> Some p ->
     outcome_of x = Ok tt /\ self_after x = s /\
     printed (emitted x) = ["Page closed"]).
Proof.
  intros x. subst x. rewrite handle_page_close_cases.
  split; [ | split ].
  - intros b ctx rest Hp Hb Hc Hne.
    rewrite Hp, page_is_same, Hb, Hc.
    rewrite (last_item_last (pages ctx) p Hne).
    repeat split; reflexivity.
  - intros b ctx rest Hp Hb Hc He.
    rewrite Hp, page_is_same, Hb, Hc, He.
    repeat split; reflexivity.
  - intros Hp. rewrite (page_is_other _ p Hp).
    repeat split; reflexivity.
Qed.

Lemma page_close_transition_witness :
  _page self_p1_of_p2_p1 = Some 1%nat /\
  _page (self_after (_handle_page_close 1%nat quiet_world []
                       (context0_update
                          (filter (fun q => negb (Nat.eqb q 1%nat)))
                          self_p1_of_p2_p1)))
  = Some 2%nat.
Proof.
  split; [ reflexivity | ].
  destruct (page_close_transition 1%nat quiet_world []
              (context0_update (filter (fun q => negb (Nat.eqb q 1%nat)))
                 self_p1_of_p2_p1)) as (H & _ & _).
  assert (Hne : pages (mk_context [2%nat]) <> []) by discriminate.
  exact (proj1 (proj2 (H (mk_browser [mk_context [2%nat]])
                         (mk_context [2%nat]) [] eq_refl eq_refl eq_refl
                         Hne))).
Defined.

(** ** Listeners *)

Lemma context0_update_frame (f : list Page -> list Page) (s : AnchorBrowser) :
  close_listeners (context0_update f s) = close_listeners s /\
  page_listeners (context0_update f s) = page_listeners s /\
  _page (context0_update f s) = _page s /\
  session_id (context0_update f s) = session_id s.
Proof.
  unfold context0_update.
  destruct (_browser s) as [[[ | [ps] rest]] | ]; repeat split; reflexivity.
Qed.

Lemma call_times_preserves (P : AnchorBrowser -> Prop) (handler : M unit) :
  (forall w h s, P s -> P (self_after (handler w h s))) ->
  forall n w h s, P s -> P (self_after (call_times n handler w h s)).
Proof.
  intros Hstep n. induction n as [ | n IH ]; intros w h s Hs.
  - exact Hs.
  - simpl. unfold bind.
    pose proof (Hstep w h s Hs) as H1.
    destruct (handler w h s) as [[o s1] d1]. unfold self_after in H1.
    simpl in H1.
    destruct o as [ [] | e ]; [ | exact H1 ].
    pose proof (IH w (h ++ d1)%list s1 H1) as H2.
    destruct (call_times n handler w (h ++ d1)%list s1) as [[o2 s2] d2].
    exact H2.
Qed.

Lemma new_page_keeps_unlistened (p0 p : Page) :
  p <> p0 ->
  forall w h s,
    ~ In p0 (close_listeners s) ->
    ~ In p0 (close_listeners (self_after (_handle_new_page p w h s))).
Proof.
  intros Hp w h s Hs. rewrite handle_new_page_effect. simpl.
  intros Hin. apply in_app_or in Hin.
  destruct Hin as [Hin | [Hin | []]]; [ exact (Hs Hin) | exact (Hp Hin) ].
Qed.

Lemma page_close_keeps_unlistened (p0 p : Page) :
  forall w h s,
    ~ In p0 (close_listeners s) ->
    ~ In p0 (close_listeners (self_after (_handle_page_close p w h s))).
Proof.
  intros w h s Hs.
  destruct (handle_page_close_frame p w h s) as [q ->]. exact Hs.
Qed.

(** Where [deliver] leaves the object: Playwright's update of the page
    list, then the listeners. *)
Lemma deliver_opened_state (p : Page) (w : world) (h : list event)
    (s : AnchorBrowser) :
  exists h',
    self_after (deliver (PageOpened p) w h s)
    = self_after
        (call_times (page_listeners s) (_handle_new_page p) w h'
           (context0_update (fun ps => (ps ++ [p])%list) s)).
Proof.
  destruct (context0_update_frame (fun ps => (ps ++ [p])%list) s)
    as (_ & Hn & _).
  exists ((h ++ []) ++ [])%list.
  unfold deliver, bind, update, self. rewrite Hn.
  destruct (call_times (page_listeners s) (_handle_new_page p) w _ _)
    as [[o2 s2] d2].
  reflexivity.
Qed.

Lemma deliver_closed_state (p : Page) (w : world) (h : list event)
    (s : AnchorBrowser) :
  exists h',
    self_after (deliver (PageClosed p) w h s)
    = self_after
        (call_times (count_occ Nat.eq_dec (close_listeners s) p)
           (_handle_page_close p) w h'
           (context0_update (filter (fun q => negb (Nat.eqb q p))) s)).
Proof.
  destruct (context0_update_frame (filter (fun q => negb (Nat.eqb q p))) s)
    as (Hc & _).
  exists ((h ++ []) ++ [])%list.
  unfold deliver, bind, update, self. rewrite Hc.
  destruct (call_times _ (_handle_page_close p) w _ _) as [[o2 s2] d2].
  reflexivity.
Qed.

Lemma deliver_keeps_unlistened (p0 : Page) (ev : page_event) (w : world)
    (h : list event) (s : AnchorBrowser) :
  ev <> PageOpened p0 ->
  ~ In p0 (close_listeners s) ->
  ~ In p0 (close_listeners (self_after (deliver ev w h s))).
Proof.
  intros Hev Hs. destruct ev as [p | p].
  - destruct (deliver_opened_state p w h s) as [h' ->].
    apply (call_times_preserves (fun s => ~ In p0 (close_listeners s))).
    + apply new_page_keeps_unlistened. congruence.
    + destruct (context0_update_frame (fun ps => (ps ++ [p])%list) s)
        as (-> & _). exact Hs.
  - destruct (deliver_closed_state p w h s) as [h' ->].
    apply (call_times_preserves (fun s => ~ In p0 (close_listeners s))).
    + apply page_close_keeps_unlistened.
    + destruct (context0_update_frame
                  (filter (fun q => negb (Nat.eqb q p))) s) as (-> & _).
      exact Hs.
Qed.

Lemma exit_keeps_listeners (w : world) (h : list event) (s : AnchorBrowser) :
  close_listeners (self_after (__exit__ w h s)) = close_listeners s.
Proof.
  unfold_run. simpl.
  destruct (truthy (session_id s)); [ | reflexivity ]. simpl.
  destruct (requests_send w _ _); [ | reflexivity ]. simpl.
  destruct (debug s); reflexivity.
Qed.

Lemma perform_keeps_unlistened (p0 : Page) (a : action) (w : world)
    (h : list event) (s : AnchorBrowser) :
  a <> Deliver (PageOpened p0) ->
  ~ In p0 (close_listeners s) ->
  ~ In p0 (close_listeners (self_after (perform a w h s))).
Proof.
  intros Ha Hs. destruct a as [ev | c | ]; simpl.
  - apply deliver_keeps_unlistened; [ congruence | exact Hs ].
  - pose proof (run_keeps_self c w h s) as Hc.
    unfold bind, ret. destruct (run c w h s) as [[o s1] d1].
    unfold self_after in *. simpl in Hc. subst s1.
    destruct o; exact Hs.
  - rewrite exit_keeps_listeners. exact Hs.
Qed.

Lemma perform_all_keeps_unlistened (p0 : Page) (actions : list action) :
  ~ In (Deliver (PageOpened p0)) actions ->
  forall w h s,
    ~ In p0 (close_listeners s) ->
    ~ In p0 (close_listeners (fst (perform_all actions w h s))).
Proof.
  induction actions as [ | a rest IH ]; intros Hnot w h s Hs.
  - exact Hs.
  - simpl.
    assert (Ha : a <> Deliver (PageOpened p0))
      by (intros ->; apply Hnot; left; reflexivity).
    pose proof (perform_keeps_unlistened p0 a w h s Ha Hs) as H1.
    destruct (perform a w h s) as [[o s1] d1]. unfold self_after in H1.
    simpl in H1.
    assert (Hrest : ~ In (Deliver (PageOpened p0)) rest)
      by (intros Hin; apply Hnot; right; exact Hin).
    pose proof (IH Hrest w (h ++ d1)%list s1 H1) as H2.
    destruct (perform_all rest w (h ++ d1)%list s1) as [s2 d2].
    exact H2.
Qed.

(** A close event for a page without a close listener calls nothing. *)
Lemma close_of_unlistened_page (p : Page) (w : world) (h : list event)
    (s : AnchorBrowser) :
  ~ In p (close_listeners s) ->
  outcome_of (deliver (PageClosed p) w h s) = Ok tt /\
  emitted (deliver (PageClosed p) w h s) = [] /\
  _page (self_after (deliver (PageClosed p) w h s)) = _page s.
Proof.
  intros Hs.
  destruct (context0_update_frame (filter (fun q => negb (Nat.eqb q p))) s)
    as (Hc & _ & Hp & _).
  unfold deliver, bind, update, self. rewrite Hc.
  rewrite (proj1 (count_occ_not_In Nat.eq_dec (close_listeners s) p) Hs).
  unfold outcome_of, emitted, self_after. simpl.
  repeat split; try reflexivity. exact Hp.
Qed.

(** [_get_browser_and_page] registers the new-page listener on the first
    context and no close listener on any page. *)
Lemma get_browser_and_page_listeners (w : world) (h : list event)
    (s : AnchorBrowser) :
  close_listeners (self_after (_get_browser_and_page w h s))
  = close_listeners s.
Proof.
  unfold _get_browser_and_page, raise_for_status, json_get_id,
    chromium_connect_over_cdp, goto.
  unfold_run. simpl.
  destruct (dimensions s) as [width height]. simpl.
  destruct (requests_send w _ _) as [r | e]; simpl; [ | reflexivity ].
  destruct (is_error_status r); simpl; [ reflexivity | ].
  destruct (body r) as [ | | fields ]; simpl; try reflexivity.
  destruct (dict_get "id" fields) as [v | ]; simpl; [ | reflexivity ].
  destruct (truthy v); simpl; [ | reflexivity ].
  destruct (connect_over_cdp w _ _) as [[ctxs] | e]; simpl;
    [ | reflexivity ].
  destruct ctxs as [ | [ps] rest ]; simpl; [ reflexivity | ].
  destruct ps as [ | p0 ps ]; simpl; [ reflexivity | ].
  destruct (page_goto w _ _ _); reflexivity.
Qed.

Lemma enter_listeners (w : world) (h : list event) (s : AnchorBrowser) :
  close_listeners (self_after (__enter__ w h s)) = close_listeners s.
Proof.
  pose proof (get_browser_and_page_listeners w h s) as H.
  unfold __enter__, bind, update.
  destruct (_get_browser_and_page w h s) as [[o s1] d1].
  unfold self_after in *. simpl in H.
  destruct o as [[b p] | e]; simpl; exact H.
Qed.

Lemma init_no_listeners (key : option string) (width height : Z)
    (proxy adblock popup captcha : bool) (t it : Z) (dbg : bool)
    (s : AnchorBrowser) :
  fst (__init__ key width height proxy adblock popup captcha t it dbg) = Ok s ->
  close_listeners s = [] /\ page_listeners s = 0%nat /\
  session_id s = PNone /\ _page s = None /\ _browser s = None.
Proof.
  unfold __init__. destruct key as [k | ]; [ | discriminate ].
  destruct (k =? "")%string; [ discriminate | ].
  simpl. intros H. inversion H; subst. repeat split; reflexivity.
Qed.

(** C10. On an object without close listeners (as [__init__] makes it),
    connection resolution registers no close listener: the initial page
    has none.  Whatever the caller does next (commands, teardown, page
    events), as long as the initial page does not itself arrive in a
    new-page event, it still has none; so its close event calls no
    handler, prints nothing, and leaves the active page as it was. *)
Theorem initial_page_has_no_close_listener
    (w : world) (h : list event) (s : AnchorBrowser) (p0 : Page) :
  close_listeners s = [] ->
  let x := __enter__ w h s in
  outcome_of x = Ok tt ->
  _page (self_after x) = Some p0 ->
  close_listeners (self_after x) = [] /\
  forall actions w1 h1,
    ~ In (Deliver (PageOpened p0)) actions ->
    let y := perform_all actions w1 h1 (self_after x) in
    ~ In p0 (close_listeners (fst y)) /\
    forall w2 h2,
      let z := deliver (PageClosed p0) w2 h2 (fst y) in
      outcome_of z = Ok tt /\
      emitted z = [] /\
      _page (self_after z) = _page (fst y).
Proof.
  intros Hs x Hok Hp.
  assert (Hx : close_listeners (self_after x) = [])
    by (subst x; rewrite enter_listeners; exact Hs).
  split; [ exact Hx | ].
  intros actions w1 h1 Hnot y.
  assert (Hy : ~ In p0 (close_listeners (fst y))).
  { subst y. apply perform_all_keeps_unlistened; [ exact Hnot | ].
    rewrite Hx. intros []. }
  split; [ exact Hy | ].
  intros w2 h2 z. subst z.
  apply close_of_unlistened_page. exact Hy.
Qed.

Lemma initial_page_has_no_close_listener_witness :
  close_listeners fresh_self = [] /\
  outcome_of (__enter__ world_session_abc123 [] fresh_self) = Ok tt /\
  _page (self_after (__enter__ world_session_abc123 [] fresh_self))
  = Some 0%nat /\
  _page
    (self_after
       (deliver (PageClosed 0%nat) quiet_world []
          (fst (perform_all
                  [Deliver (PageOpened 1%nat); Run Screenshot;
                   Deliver (PageClosed 1%nat)]
                  quiet_world []
                  (self_after (__enter__ world_session_abc123 []
                                 fresh_self))))))
  = Some 0%nat.
Proof.
  split; [ reflexivity | split; [ reflexivity | split; [ reflexivity | ] ] ].
  destruct (initial_page_has_no_close_listener world_session_abc123 []
              fresh_self 0%nat eq_refl eq_refl eq_refl) as [_ H].
  destruct (H [Deliver (PageOpened 1%nat); Run Screenshot;
               Deliver (PageClosed 1%nat)] quiet_world [])
    as [_ H2].
  - simpl. intros [E | [E | [E | []]]]; discriminate.
  - destruct (H2 quiet_world []) as (_ & _ & ->). reflexivity.
Defined.

(** ** The scenarios of the specification, run *)

(** The vendor answers 500: the screenshot of the base class is returned. *)
Example scenario_screenshot_500 :
  run Screenshot world_500 [] self_abc123
  = (Ok (PStr "FALLBACK"), self_abc123,
     [Http (screenshot_request self_abc123);
      Print "Anchor screenshot failed with status 500, falling back to standard screenshot";
      Super BScreenshot]).
Proof. reflexivity. Qed.

(** Page 1 opens and becomes active; it closes while page 2 remains: page 2
    is the active page. *)
Example scenario_active_page_closes :
  _page
    (fst (perform_all
            [Deliver (PageOpened 2%nat); Deliver (PageOpened 1%nat);
             Deliver (PageClosed 0%nat); Deliver (PageClosed 1%nat)]
            quiet_world []
            (self_after (__enter__ world_session_abc123 [] fresh_self))))
  = Some 2%nat.
Proof. reflexivity. Qed.

(** The last page closes: no active page, and the warning. *)
Example scenario_all_pages_closed :
  let after :=
    perform_all
      [Deliver (PageOpened 1%nat); Deliver (PageClosed 0%nat);
       Deliver (PageClosed 1%nat)]
      quiet_world []
      (self_after (__enter__ world_session_abc123 [] fresh_self)) in
  _page (fst after) = None /\
  printed (snd after)
  = ["New page created"; "Page closed";
     "Warning: All pages have been closed."].
Proof. split; reflexivity. Qed.

(** A session identifier that is present but empty is stored and then
    rejected. *)
Example scenario_empty_identifier :
  let x :=
    _get_browser_and_page
      (fixed_world (Ok (mk_response 200 "" (JObject [("id", PStr "")])))
         (Ok PNone))
      [] fresh_self in
  outcome_of x
  = Raise (mk_exn ValueError "Failed to create Anchor browser session") /\
  session_id (self_after x) = PStr "".
Proof. split; reflexivity. Qed.

(** * Further properties of the methods *)

(** ** Shared lemmas *)

Lemma get_browser_and_page_cases (w : world) (h : list event)
    (s : AnchorBrowser) :
  _get_browser_and_page w h s = creation_path w h s.
Proof.
  unfold _get_browser_and_page, creation_path, create_session_request,
    raise_for_status, json_get_id, chromium_connect_over_cdp, goto.
  unfold_run. simpl.
  destruct (dimensions s) as [width height]. simpl. unfold anchor_headers.
  norm_history.
  destruct (requests_send w h _) as [r | e]; simpl; [ | reflexivity ].
  destruct (is_error_status r); simpl; [ reflexivity | ].
  destruct (body r) as [ | | fields ]; simpl; try reflexivity.
  destruct (dict_get "id" fields) as [v | ]; simpl; [ | reflexivity ].
  destruct (truthy v); simpl; [ | reflexivity ]. norm_history.
  destruct (connect_over_cdp w _ _) as [[ctxs] | e]; simpl;
    [ | reflexivity ].
  destruct ctxs as [ | [ps] rest ]; simpl; [ reflexivity | ].
  destruct ps as [ | p0 ps ]; simpl; [ reflexivity | ]. norm_history.
  destruct (page_goto w _ _ _) as [ [] | e ]; reflexivity.
Qed.

Lemma run_direct_path (c : command) (w : world) (h : list event)
    (s : AnchorBrowser) :
  fallback_only c = true \/ truthy (session_id s) = false ->
  run c w h s = direct_path c w h s.
Proof.
  intros Hcase. unfold direct_path, no_session_notice.
  destruct (fallback_only c) eqn:Hb.
  - destruct c as [ | cx cy button | txt ]; try discriminate.
    unfold fallback_only in Hb. unfold run, click. rewrite Hb.
    unfold super. rewrite app_nil_r. reflexivity.
  - destruct Hcase as [Hcase | Hs]; [ discriminate | ].
    destruct c as [ | cx cy button | txt ]; unfold fallback_only in Hb.
    + unfold_run. simpl. rewrite Hs. simpl. norm_history. reflexivity.
    + unfold run, click. rewrite Hb. unfold_run. simpl. rewrite Hs. simpl.
      norm_history. reflexivity.
    + unfold_run. simpl. rewrite Hs. simpl. norm_history. reflexivity.
Qed.

(** Every run is one of the two paths. *)
Lemma run_paths (c : command) (w : world) (h : list event)
    (s : AnchorBrowser) :
  run c w h s = direct_path c w h s \/ run c w h s = vendor_path c w h s.
Proof.
  destruct (fallback_only c) eqn:Hb.
  - left. apply run_direct_path. left. exact Hb.
  - destruct (truthy (session_id s)) eqn:Hs.
    + right. apply run_vendor_path; assumption.
    + left. apply run_direct_path. right. exact Hs.
Qed.

Lemma direct_path_calls (c : command) (w : world) (h : list event)
    (s : AnchorBrowser) :
  http_calls (emitted (direct_path c w h s)) = [] /\
  super_calls (emitted (direct_path c w h s)) = [fallback_of c].
Proof.
  unfold direct_path, emitted, no_session_notice. simpl.
  destruct (fallback_only c); [ split; reflexivity | ].
  destruct c; split; reflexivity.
Qed.

Lemma vendor_path_calls (c : command) (w : world) (h : list event)
    (s : AnchorBrowser) :
  http_calls (emitted (vendor_path c w h s)) = [vendor_request s c] /\
  (super_calls (emitted (vendor_path c w h s)) = []
   \/ super_calls (emitted (vendor_path c w h s)) = [fallback_of c]
   \/ super_calls (emitted (vendor_path c w h s))
      = [fallback_of c; fallback_of c]).
Proof.
  unfold vendor_path.
  destruct (requests_send w h (vendor_request s c)) as [r | e].
  - destruct (ok r); [ split; [ reflexivity | left; reflexivity ] | ].
    destruct (super_call w _ _) as [v | e].
    + split; [ reflexivity | right; left; reflexivity ].
    + destruct (is_Exception e).
      * split; [ reflexivity | right; right; reflexivity ].
      * split; [ reflexivity | right; left; reflexivity ].
  - destruct (is_Exception e).
    + split; [ reflexivity | right; left; reflexivity ].
    + split; [ reflexivity | left; reflexivity ].
Qed.

Lemma prefix_append (a b : string) : String.prefix a (a ++ b) = true.
Proof.
  induction a as [ | ch a IH ]; simpl.
  - destruct b; reflexivity.
  - destruct (Ascii.ascii_dec ch ch) as [ _ | Hne ]; [ exact IH | congruence ].
Qed.

Lemma vendor_request_authenticated (s : AnchorBrowser) (c : command) :
  authenticated s (vendor_request s c).
Proof.
  destruct c; split; try reflexivity; apply prefix_append.
Qed.

Lemma last_item_In {A : Type} (l : list A) (q : A) :
  last_item l = Some q -> In q l.
Proof.
  induction l as [ | a l IH ]; [ discriminate | ].
  destruct l as [ | b l ].
  - simpl. intros E. inversion E. left. reflexivity.
  - intros E. right. apply IH. exact E.
Qed.

Lemma filter_out_absent (p : Page) (l : list Page) :
  ~ In p l -> filter (fun q => negb (Nat.eqb q p)) l = l.
Proof.
  induction l as [ | a l IH ]; intros Hn; [ reflexivity | ].
  simpl. destruct (Nat.eqb a p) eqn:E.
  - apply Nat.eqb_eq in E. exfalso. apply Hn. left. exact E.
  - simpl. rewrite IH; [ reflexivity | ].
    intros Hin. apply Hn. right. exact Hin.
Qed.

(** ** Construction *)

(** X1. [__init__] raises [ValueError], printing nothing, exactly when
    ANCHOR_API_KEY is unset or empty.  The object it returns otherwise holds
    that key and has no session: every command on it goes to the base class
    without any HTTP request, and [__exit__] on it does nothing. *)
Theorem fresh_object_has_no_session
    (key : option string) (width height : Z)
    (proxy adblock popup captcha : bool) (t it : Z) (dbg : bool) :
  let x := __init__ key width height proxy adblock popup captcha t it dbg in
  ((key = None \/ key = Some "") <->
   x = (Raise (mk_exn ValueError "ANCHOR_API_KEY not found in .env file"), [])) /\
  (forall s, fst x = Ok s ->
     key = Some (api_key s) /\
     dimensions s = (width, height) /\
     (forall c w h,
        http_calls (emitted (run c w h s)) = [] /\
        super_calls (emitted (run c w h s)) = [fallback_of c] /\
        self_after (run c w h s) = s) /\
     (forall w h, __exit__ w h s = (Ok tt, s, []))).
Proof.
  intros x. subst x. unfold __init__.
  destruct key as [k | ].
  - destruct (k =? "")%string eqn:Ek.
    + apply String.eqb_eq in Ek. subst k.
      split; [ split; [ reflexivity | right; reflexivity ] | ].
      intros s H. discriminate.
    + split.
      * split; [ | discriminate ].
        intros [H | H]; [ discriminate | ].
        inversion H; subst. discriminate.
      * simpl. intros s H. inversion H; subst; clear H. simpl.
        split; [ reflexivity | split; [ reflexivity | split ] ].
        -- intros c w h.
           rewrite run_direct_path by (right; reflexivity).
           destruct (direct_path_calls c w h
                       (mk_self k dbg "https://api.anchorbrowser.io/api"
                          "wss://connect.anchorbrowser.io" PNone
                          (width, height) proxy (adblock, popup) captcha t it
                          None None 0%nat [])) as [H1 H2].
           split; [ exact H1 | split; [ exact H2 | reflexivity ] ].
        -- intros w h. apply exit_without_session. reflexivity.
  - split; [ split; [ reflexivity | left; reflexivity ] | ].
    intros s H. discriminate.
Qed.

(** ** Commands *)

(** X2. An identifier that is falsy without being [None] (the empty
    string, 0, [False]) counts as no session: every command goes to the
    base class once and sends no HTTP request, and [__exit__] sends nothing
    and leaves that value in place. *)
Theorem falsy_identifier_is_no_session
    (c : command) (w : world) (h : list event) (s : AnchorBrowser) :
  truthy (session_id s) = false ->
  http_calls (emitted (run c w h s)) = [] /\
  super_calls (emitted (run c w h s)) = [fallback_of c] /\
  outcome_of (run c w h s)
  = super_call w (h ++ removelast (emitted (run c w h s)))%list (fallback_of c) /\
  __exit__ w h s = (Ok tt, s, []).
Proof.
  intros Hs. rewrite run_direct_path by (right; exact Hs).
  destruct (direct_path_calls c w h s) as [H1 H2].
  split; [ exact H1 | split; [ exact H2 | split ] ].
  - unfold direct_path, outcome_of, emitted. simpl.
    rewrite removelast_last. reflexivity.
  - apply exit_without_session. exact Hs.
Qed.

Lemma falsy_identifier_is_no_session_witness :
  truthy (session_id (set_session_id (PStr "") fresh_self)) = false /\
  super_calls
    (emitted (run (Click 3 4 "left") quiet_world []
                (set_session_id (PStr "") fresh_self)))
  = [BClick 3 4 "left"] /\
  session_id
    (self_after (__exit__ quiet_world [] (set_session_id (PStr "") fresh_self)))
  = PStr "".
Proof.
  split; [ reflexivity | ].
  destruct (falsy_identifier_is_no_session (Click 3 4 "left") quiet_world []
              (set_session_id (PStr "") fresh_self) eq_refl)
    as (_ & H2 & _ & H4).
  split; [ exact H2 | rewrite H4; reflexivity ].
Defined.

(** X3. With a session, whatever status the vendor answers outside 400 to
    599 counts as success for all three commands: one request, no call to
    the base class, nothing printed; [screenshot] returns the body and
    [click] and [type] return [None]. *)
Theorem non_error_status_is_success
    (c : command) (w : world) (h : list event) (s : AnchorBrowser)
    (r : Response) :
  truthy (session_id s) = true ->
  fallback_only c = false ->
  requests_send w h (vendor_request s c) = Ok r ->
  ~ (400 <= status_code r < 600) ->
  run c w h s
  = (Ok (match c with Screenshot => PStr (text r) | _ => PNone end), s,
     [Http (vendor_request s c)]).
Proof.
  intros Hs Hb Hr Hst.
  rewrite (run_vendor_path c w h s Hs Hb). unfold vendor_path. rewrite Hr.
  assert (Hok : ok r = true).
  { unfold ok, is_error_status.
    destruct (400 <=? status_code r) eqn:E1; [ | reflexivity ].
    destruct (status_code r <? 600) eqn:E2; [ | reflexivity ].
    apply Z.leb_le in E1. apply Z.ltb_lt in E2. exfalso. apply Hst. lia. }
  rewrite Hok. reflexivity.
Qed.

Lemma non_error_status_is_success_witness :
  truthy (session_id self_abc123) = true /\
  ~ (400 <= status_code (mk_response 304 "IMG" JInvalid) < 600) /\
  run (TypeText "hi") world_304 [] self_abc123
  = (Ok PNone, self_abc123, [Http (type_request self_abc123 "hi")]).
Proof.
  assert (Hst : ~ (400 <= status_code (mk_response 304 "IMG" JInvalid) < 600))
    by (simpl; lia).
  split; [ reflexivity | split; [ exact Hst | ] ].
  exact (non_error_status_is_success (TypeText "hi") world_304 [] self_abc123
           (mk_response 304 "IMG" JInvalid) eq_refl eq_refl eq_refl Hst).
Defined.

(** X4. With a session, a click whose button is not "back", "forward" or
    "wheel" sends one POST whose body is the two coordinates as given and a
    button field that is "right" exactly when the button is "right", and
    "left" for every other button. *)
Theorem click_sends_left_or_right
    (cx cy : Z) (button : string) (w : world) (h : list event)
    (s : AnchorBrowser) :
  truthy (session_id s) = true ->
  ~ In button ["back"; "forward"; "wheel"] ->
  http_calls (emitted (click cx cy button w h s))
  = [mk_request POST
       (base_url s ++ "/sessions/" ++ py_str (session_id s) ++ "/mouse/click")
       [("anchor-api-key", api_key s)]
       (Some [("x", JInt cx); ("y", JInt cy);
              ("button",
               JStr (if (button =? "right")%string then "right" else "left"))])].
Proof.
  intros Hs Hb.
  assert (Hnav : fallback_only (Click cx cy button) = false).
  { unfold fallback_only.
    destruct (existsb (String.eqb button) ["back"; "forward"; "wheel"]) eqn:E;
      [ | reflexivity ].
    apply existsb_exists in E. destruct E as (b & Hin & Heq).
    apply String.eqb_eq in Heq. subst b. destruct (Hb Hin). }
  change (click cx cy button w h s) with (run (Click cx cy button) w h s).
  rewrite (run_vendor_path _ w h s Hs Hnav).
  rewrite (proj1 (vendor_path_calls (Click cx cy button) w h s)).
  unfold vendor_request, click_request, anchor_headers, button_mapping.
  simpl dict_get.
  destruct (button =? "left")%string eqn:El.
  - apply String.eqb_eq in El. subst button. reflexivity.
  - destruct (button =? "right")%string; reflexivity.
Qed.

Lemma click_sends_left_or_right_witness :
  truthy (session_id self_abc123) = true /\
  ~ In "right" ["back"; "forward"; "wheel"] /\
  http_calls (emitted (click 7 8 "right" quiet_world [] self_abc123))
  = [mk_request POST
       "https://api.anchorbrowser.io/api/sessions/abc123/mouse/click"
       [("anchor-api-key", "key")]
       (Some [("x", JInt 7); ("y", JInt 8); ("button", JStr "right")])].
Proof.
  assert (Hb : ~ In "right" ["back"; "forward"; "wheel"]).
  { simpl. intros [H | [H | [H | []]]]; discriminate. }
  split; [ reflexivity | split; [ exact Hb | ] ].
  exact (click_sends_left_or_right 7 8 "right" quiet_world [] self_abc123
           eq_refl Hb).
Defined.

(** X5. An exception of the vendor call that is not an [Exception]
    ([KeyboardInterrupt]) is not caught: the command raises it as it is,
    after its one request, and the base class is not called. *)
Theorem base_exception_is_not_caught
    (c : command) (w : world) (h : list event) (s : AnchorBrowser) (e : exn) :
  truthy (session_id s) = true ->
  fallback_only c = false ->
  requests_send w h (vendor_request s c) = Raise e ->
  is_Exception e = false ->
  run c w h s = (Raise e, s, [Http (vendor_request s c)]).
Proof.
  intros Hs Hb Hr He.
  rewrite (run_vendor_path c w h s Hs Hb). unfold vendor_path.
  rewrite Hr, He. reflexivity.
Qed.

Lemma base_exception_is_not_caught_witness :
  is_Exception (mk_exn KeyboardInterrupt "") = false /\
  super_calls
    (emitted
       (run Screenshot
          (fixed_world (Raise (mk_exn KeyboardInterrupt "")) (Ok PNone))
          [] self_abc123))
  = [].
Proof.
  split; [ reflexivity | ].
  rewrite (base_exception_is_not_caught Screenshot
             (fixed_world (Raise (mk_exn KeyboardInterrupt "")) (Ok PNone))
             [] self_abc123 (mk_exn KeyboardInterrupt "")
             eq_refl eq_refl eq_refl eq_refl).
  reflexivity.
Defined.

(** X6. Whatever the vendor and the base class answer, a command leaves
    the object as it found it, sends at most one request (the one of that
    command), calls the base class at most twice and only with the
    operation and the arguments of that command, and does at least one of
    the two. *)
Theorem command_footprint
    (c : command) (w : world) (h : list event) (s : AnchorBrowser) :
  let d := emitted (run c w h s) in
  self_after (run c w h s) = s /\
  (http_calls d = [] \/ http_calls d = [vendor_request s c]) /\
  (length (super_calls d) <= 2)%nat /\
  Forall (eq (fallback_of c)) (super_calls d) /\
  (http_calls d = [] -> super_calls d = [fallback_of c]).
Proof.
  intros d. subst d.
  split; [ apply run_keeps_self | ].
  destruct (run_paths c w h s) as [-> | ->].
  - destruct (direct_path_calls c w h s) as [-> ->].
    repeat split; auto.
  - destruct (vendor_path_calls c w h s) as [-> Hsup].
    split; [ right; reflexivity | ].
    destruct Hsup as [-> | [-> | ->]]; simpl;
      (split; [ lia | split; [ | discriminate ] ]);
      repeat constructor.
Qed.

(** X7. Every request sent by a command, by [__exit__] or by
    [_get_browser_and_page] carries the header anchor-api-key with the
    object's key and no other header, and goes to a URL under [base_url]. *)
Theorem requests_are_authenticated
    (w : world) (h : list event) (s : AnchorBrowser) :
  (forall c, Forall (authenticated s) (http_calls (emitted (run c w h s)))) /\
  Forall (authenticated s) (http_calls (emitted (__exit__ w h s))) /\
  Forall (authenticated s)
    (http_calls (emitted (_get_browser_and_page w h s))).
Proof.
  split; [ | split ].
  - intros c. destruct (run_paths c w h s) as [-> | ->].
    + rewrite (proj1 (direct_path_calls c w h s)). constructor.
    + rewrite (proj1 (vendor_path_calls c w h s)).
      constructor; [ apply vendor_request_authenticated | constructor ].
  - assert (Hdel : authenticated s (delete_session_request s))
      by (split; [ reflexivity | apply prefix_append ]).
    destruct (truthy (session_id s)) eqn:Hs.
    + destruct (requests_send w h (delete_session_request s)) as [r | e] eqn:Hr.
      * rewrite (exit_with_session w h s r Hs Hr). unfold emitted. simpl.
        destruct (debug s); simpl; constructor; auto.
      * rewrite (exit_delete_raises w h s e Hs Hr). unfold emitted. simpl.
        constructor; auto.
    + rewrite (exit_without_session w h s Hs). constructor.
  - assert (Hreq : authenticated s (create_session_request s))
      by (split; [ reflexivity | apply prefix_append ]).
    rewrite get_browser_and_page_cases. unfold creation_path.
    destruct (requests_send w h _) as [r | e];
      [ | unfold emitted; simpl; constructor; auto ].
    destruct (is_error_status r);
      [ unfold emitted; simpl; constructor; auto | ].
    destruct (body r) as [ | | fields ];
      try (unfold emitted; simpl; constructor; auto; fail).
    destruct (truthy _);
      [ | unfold emitted; simpl; constructor; auto ].
    destruct (connect_over_cdp w _ _) as [b | e];
      [ | unfold emitted; simpl; constructor; auto ].
    destruct (contexts b) as [ | ctx rest ];
      [ unfold emitted; simpl; constructor; auto | ].
    destruct (pages ctx) as [ | p ps ];
      [ unfold emitted; simpl; constructor; auto | ].
    destruct (page_goto w _ _ _); unfold emitted; simpl; constructor; auto.
Qed.

(** ** Teardown *)

Lemma exit_sends_delete (w : world) (h : list event) (s : AnchorBrowser) :
  truthy (session_id s) = true ->
  http_calls (emitted (__exit__ w h s)) = [delete_session_request s].
Proof.
  intros Hs.
  destruct (requests_send w h (delete_session_request s)) as [r | e] eqn:Hr.
  - rewrite (exit_with_session w h s r Hs Hr). unfold emitted. simpl.
    destruct (debug s); reflexivity.
  - rewrite (exit_delete_raises w h s e Hs Hr). reflexivity.
Qed.

Lemma exit_ok_clears (w : world) (h : list event) (s : AnchorBrowser) :
  outcome_of (__exit__ w h s) = Ok tt ->
  truthy (session_id (self_after (__exit__ w h s))) = false.
Proof.
  intros Hok.
  destruct (truthy (session_id s)) eqn:Hs.
  - destruct (requests_send w h (delete_session_request s)) as [r | e] eqn:Hr.
    + rewrite (exit_with_session w h s r Hs Hr). reflexivity.
    + rewrite (exit_delete_raises w h s e Hs Hr) in Hok. discriminate.
  - rewrite (exit_without_session w h s Hs). exact Hs.
Qed.

(** X8. When the delete request itself raises, [__exit__] raises the same
    exception and changes nothing: the identifier stays, and the next
    [__exit__] sends the delete request again. *)
Theorem failed_delete_keeps_session
    (w : world) (h : list event) (s : AnchorBrowser) (e : exn) :
  truthy (session_id s) = true ->
  requests_send w h (delete_session_request s) = Raise e ->
  let first := __exit__ w h s in
  outcome_of first = Raise e /\
  self_after first = s /\
  forall w' h',
    http_calls (emitted (__exit__ w' h' (self_after first)))
    = [delete_session_request s].
Proof.
  intros Hs Hr first. subst first.
  rewrite (exit_delete_raises w h s e Hs Hr).
  split; [ reflexivity | split; [ reflexivity | ] ].
  intros w' h'. apply exit_sends_delete. exact Hs.
Qed.

Lemma failed_delete_keeps_session_witness :
  truthy (session_id self_abc123) = true /\
  session_id
    (self_after
       (__exit__ (fixed_world (Raise (mk_exn RequestException "timeout"))
                    (Ok PNone))
          [] self_abc123))
  = PStr "abc123".
Proof.
  split; [ reflexivity | ].
  destruct (failed_delete_keeps_session
              (fixed_world (Raise (mk_exn RequestException "timeout"))
                 (Ok PNone))
              [] self_abc123 (mk_exn RequestException "timeout")
              eq_refl eq_refl) as (_ & -> & _).
  reflexivity.
Defined.

(** X9. After an [__exit__] that returned normally, the object is back to
    having no session: every command goes to the base class without any
    HTTP request, and another [__exit__] does nothing. *)
Theorem after_teardown_commands_fall_back
    (w : world) (h : list event) (s : AnchorBrowser) :
  outcome_of (__exit__ w h s) = Ok tt ->
  let s' := self_after (__exit__ w h s) in
  (forall c w' h',
     http_calls (emitted (run c w' h' s')) = [] /\
     super_calls (emitted (run c w' h' s')) = [fallback_of c]) /\
  (forall w' h', __exit__ w' h' s' = (Ok tt, s', [])).
Proof.
  intros Hok s'. pose proof (exit_ok_clears w h s Hok) as Hs'. fold s' in Hs'.
  split.
  - intros c w' h'. rewrite run_direct_path by (right; exact Hs').
    apply direct_path_calls.
  - intros w' h'. apply exit_without_session. exact Hs'.
Qed.

Lemma after_teardown_commands_fall_back_witness :
  outcome_of (__exit__ quiet_world [] self_abc123) = Ok tt /\
  http_calls
    (emitted (run Screenshot quiet_world []
                (self_after (__exit__ quiet_world [] self_abc123))))
  = [].
Proof.
  split; [ reflexivity | ].
  destruct (after_teardown_commands_fall_back quiet_world [] self_abc123
              eq_refl) as [H _].
  exact (proj1 (H Screenshot quiet_world [])).
Defined.

(** ** Session creation *)

(** X10. When [_get_browser_and_page] returns, it has done exactly this:
    one POST answered without an error status and with a truthy "id", one
    connection to [base_ws_url] with that identifier as sessionId, one
    navigation of the returned page to https://bing.com.  The returned
    page is the first page of the first context of the returned browser,
    the identifier is stored, and one more new-page listener is
    registered; the active page and the stored browser are untouched. *)
Theorem creation_success
    (w : world) (h : list event) (s : AnchorBrowser) (b : Browser) (p : Page) :
  let x := _get_browser_and_page w h s in
  outcome_of x = Ok (b, p) ->
  exists r ctx,
    requests_send w h (create_session_request s) = Ok r /\
    ok r = true /\
    truthy (session_id (self_after x)) = true /\
    emitted x
    = [Http (create_session_request s);
       ConnectOverCdp
         (base_ws_url s ++ "/?sessionId=" ++ py_str (session_id (self_after x)));
       Goto p "https://bing.com"] /\
    hd_error (contexts b) = Some ctx /\
    hd_error (pages ctx) = Some p /\
    page_listeners (self_after x) = S (page_listeners s) /\
    close_listeners (self_after x) = close_listeners s /\
    _page (self_after x) = _page s /\
    _browser (self_after x) = _browser s.
Proof.
  intros x. subst x. rewrite get_browser_and_page_cases. unfold creation_path.
  destruct (requests_send w h _) as [r | e]; [ | discriminate ].
  destruct (is_error_status r) eqn:Hst; [ discriminate | ].
  destruct (body r) as [ | | fields ]; try discriminate.
  destruct (truthy _) eqn:Hid; [ | discriminate ].
  destruct (connect_over_cdp w _ _) as [b' | e]; [ | discriminate ].
  destruct (contexts b') as [ | ctx rest ] eqn:Hc; [ discriminate | ].
  destruct (pages ctx) as [ | p' ps ] eqn:Hp; [ discriminate | ].
  destruct (page_goto w _ _ _) as [ [] | e ]; [ | discriminate ].
  unfold outcome_of, self_after, emitted. simpl.
  intros E. inversion E; subst.
  exists r, ctx. rewrite Hc, Hp.
  split; [ reflexivity | ].
  split; [ unfold ok; rewrite Hst; reflexivity | ].
  split; [ exact Hid | ].
  repeat split; reflexivity.
Qed.

Lemma creation_success_witness :
  outcome_of (_get_browser_and_page world_session_abc123 [] fresh_self)
  = Ok (mk_browser [mk_context [0%nat]], 0%nat) /\
  page_listeners
    (self_after (_get_browser_and_page world_session_abc123 [] fresh_self))
  = 1%nat.
Proof.
  split; [ reflexivity | ].
  destruct (creation_success world_session_abc123 [] fresh_self
              (mk_browser [mk_context [0%nat]]) 0%nat eq_refl)
    as (r & ctx & _ & _ & _ & _ & _ & _ & H & _).
  exact H.
Defined.

(** X11. [_get_browser_and_page] never connects without an identifier: if
    a connection was attempted at all, the create request came first, the
    stored identifier is truthy, and the connection went to [base_ws_url]
    with that identifier. *)
Theorem connection_needs_identifier
    (w : world) (h : list event) (s : AnchorBrowser) (endpoint : string) :
  let x := _get_browser_and_page w h s in
  In (ConnectOverCdp endpoint) (emitted x) ->
  hd_error (emitted x) = Some (Http (create_session_request s)) /\
  truthy (session_id (self_after x)) = true /\
  endpoint
  = base_ws_url s ++ "/?sessionId=" ++ py_str (session_id (self_after x)).
Proof.
  intros x. subst x. rewrite get_browser_and_page_cases. unfold creation_path.
  assert (Hno : forall req : request, ~ In (ConnectOverCdp endpoint) [Http req]).
  { intros req [H | []]. discriminate. }
  assert (Hyes : forall req ep rest,
             In (ConnectOverCdp endpoint)
               (Http req :: ConnectOverCdp ep :: rest) ->
             (forall e, In e rest -> exists q u, e = Goto q u) ->
             endpoint = ep).
  { intros req ep rest [H | [H | H]] Hrest.
    - discriminate.
    - inversion H. reflexivity.
    - destruct (Hrest _ H) as (q & u & E). discriminate. }
  destruct (requests_send w h _) as [r | e];
    [ | intros H; destruct (Hno _ H) ].
  destruct (is_error_status r); [ intros H; destruct (Hno _ H) | ].
  destruct (body r) as [ | | fields ];
    try (intros H; destruct (Hno _ H)).
  destruct (truthy _) eqn:Hid; [ | intros H; destruct (Hno _ H) ].
  destruct (connect_over_cdp w _ _) as [b' | e].
  - destruct (contexts b') as [ | ctx rest ].
    + unfold emitted, self_after. simpl snd. simpl fst. intros H.
      split; [ reflexivity | split; [ exact Hid | ] ].
      apply (Hyes _ _ [] H). intros e [].
    + destruct (pages ctx) as [ | p' ps ].
      * unfold emitted, self_after. simpl snd. simpl fst. intros H.
        split; [ reflexivity | split; [ exact Hid | ] ].
        apply (Hyes _ _ [] H). intros e [].
      * destruct (page_goto w _ _ _) as [ [] | e ];
          unfold emitted, self_after; simpl snd; simpl fst; intros H;
          (split; [ reflexivity | split; [ exact Hid | ] ]);
          apply (Hyes _ _ [Goto p' "https://bing.com"] H);
          intros e' [E | []]; subst e'; eauto.
  - unfold emitted, self_after. simpl snd. simpl fst. intros H.
    split; [ reflexivity | split; [ exact Hid | ] ].
    apply (Hyes _ _ [] H). intros e' [].
Qed.

Lemma connection_needs_identifier_witness :
  In (ConnectOverCdp "wss://connect.anchorbrowser.io/?sessionId=abc123")
    (emitted (_get_browser_and_page world_session_abc123 [] fresh_self)) /\
  truthy
    (session_id
       (self_after (_get_browser_and_page world_session_abc123 [] fresh_self)))
  = true.
Proof.
  assert (Hin : In (ConnectOverCdp
                      "wss://connect.anchorbrowser.io/?sessionId=abc123")
                  (emitted (_get_browser_and_page world_session_abc123 []
                              fresh_self)))
    by (right; left; reflexivity).
  split; [ exact Hin | ].
  exact (proj1 (proj2 (connection_needs_identifier world_session_abc123 []
                         fresh_self _ Hin))).
Defined.

(** X12. An "id" that is present but falsy (JSON null, the empty string,
    0, false) is rejected like a missing one: [ValueError] after the one
    request, no connection attempt.  The falsy value has by then replaced
    whatever identifier was stored before. *)
Theorem falsy_identifier_is_rejected
    (w : world) (h : list event) (s : AnchorBrowser) (r : Response)
    (fields : list (string * pyval)) (v : pyval) :
  requests_send w h (create_session_request s) = Ok r ->
  ok r = true ->
  body r = JObject fields ->
  dict_get "id" fields = Some v ->
  truthy v = false ->
  _get_browser_and_page w h s
  = (Raise (mk_exn ValueError "Failed to create Anchor browser session"),
     set_session_id v s, [Http (create_session_request s)]).
Proof.
  intros Hr Hok Hbody Hid Hv.
  rewrite get_browser_and_page_cases. unfold creation_path.
  unfold ok in Hok. apply negb_true_iff in Hok.
  rewrite Hr, Hok, Hbody, Hid, Hv. reflexivity.
Qed.

Lemma falsy_identifier_is_rejected_witness :
  truthy (PInt 0) = false /\
  session_id
    (self_after
       (_get_browser_and_page
          (fixed_world (Ok (mk_response 200 "" (JObject [("id", PInt 0)])))
             (Ok PNone))
          [] self_abc123))
  = PInt 0.
Proof.
  split; [ reflexivity | ].
  rewrite (falsy_identifier_is_rejected
             (fixed_world (Ok (mk_response 200 "" (JObject [("id", PInt 0)])))
                (Ok PNone))
             [] self_abc123 (mk_response 200 "" (JObject [("id", PInt 0)]))
             [("id", PInt 0)] (PInt 0)
             eq_refl eq_refl eq_refl eq_refl eq_refl).
  reflexivity.
Defined.

(** X13. Once the vendor has returned a truthy identifier, however
    [_get_browser_and_page] ends (connection refused, no context, no page,
    navigation error, or success), a following [__exit__] sends the DELETE
    for exactly that identifier, with the same key. *)
Theorem created_session_can_be_torn_down
    (w : world) (h : list event) (s : AnchorBrowser) (r : Response)
    (fields : list (string * pyval)) (v : pyval) :
  requests_send w h (create_session_request s) = Ok r ->
  ok r = true ->
  body r = JObject fields ->
  dict_get "id" fields = Some v ->
  truthy v = true ->
  forall w' h',
    http_calls
      (emitted (__exit__ w' h' (self_after (_get_browser_and_page w h s))))
    = [mk_request DELETE (base_url s ++ "/sessions/" ++ py_str v)
         [("anchor-api-key", api_key s)] None].
Proof.
  intros Hr Hok Hbody Hid Hv w' h'.
  assert (Hs : self_after (_get_browser_and_page w h s) = set_session_id v s
               \/ self_after (_get_browser_and_page w h s)
                  = add_page_listener (set_session_id v s)).
  { rewrite get_browser_and_page_cases. unfold creation_path.
    unfold ok in Hok. apply negb_true_iff in Hok.
    rewrite Hr, Hok, Hbody, Hid, Hv.
    destruct (connect_over_cdp w _ _) as [b | e]; [ | left; reflexivity ].
    destruct (contexts b) as [ | ctx rest ]; [ left; reflexivity | ].
    destruct (pages ctx) as [ | p ps ]; [ right; reflexivity | ].
    destruct (page_goto w _ _ _); right; reflexivity. }
  destruct Hs as [-> | ->]; rewrite exit_sends_delete by exact Hv;
    reflexivity.
Qed.

Lemma created_session_can_be_torn_down_witness :
  truthy (PStr "abc123") = true /\
  http_calls
    (emitted
       (__exit__ quiet_world []
          (self_after
             (_get_browser_and_page
                (mk_world
                   (fun _ _ =>
                      Ok (mk_response 200 ""
                            (JObject [("id", PStr "abc123")])))
                   (fun _ _ => Ok PNone)
                   (fun _ _ => Raise (mk_exn PlaywrightError "refused"))
                   (fun _ _ _ => Ok tt))
                [] fresh_self))))
  = [mk_request DELETE "https://api.anchorbrowser.io/api/sessions/abc123"
       [("anchor-api-key", "key")] None].
Proof.
  split; [ reflexivity | ].
  exact (created_session_can_be_torn_down
           (mk_world
              (fun _ _ =>
                 Ok (mk_response 200 "" (JObject [("id", PStr "abc123")])))
              (fun _ _ => Ok PNone)
              (fun _ _ => Raise (mk_exn PlaywrightError "refused"))
              (fun _ _ _ => Ok tt))
           [] fresh_self
           (mk_response 200 "" (JObject [("id", PStr "abc123")]))
           [("id", PStr "abc123")] (PStr "abc123")
           eq_refl eq_refl eq_refl eq_refl eq_refl quiet_world []).
Defined.

(** X14. When the create request raises, or is answered with an error
    status, or with a body that is not a JSON object, the call raises after
    that one request and the object is unchanged; an exception of the
    request itself comes out as it is. *)
Theorem creation_fails_before_identifier
    (w : world) (h : list event) (s : AnchorBrowser) :
  let vendor := requests_send w h (create_session_request s) in
  (exists e, vendor = Raise e) \/
  (exists r, vendor = Ok r /\
             (ok r = false \/ body r = JInvalid \/ body r = JNotObject)) ->
  exists e,
    _get_browser_and_page w h s
    = (Raise e, s, [Http (create_session_request s)]) /\
    (forall e', vendor = Raise e' -> e = e').
Proof.
  intros vendor Hcase. subst vendor.
  rewrite get_browser_and_page_cases. unfold creation_path.
  destruct Hcase as [[e He] | (r & Hr & Hcase)].
  - rewrite He. exists e. split; [ reflexivity | ].
    intros e' E. inversion E. reflexivity.
  - rewrite Hr.
    destruct (is_error_status r) eqn:Hst.
    + eexists. split; [ reflexivity | discriminate ].
    + destruct Hcase as [Hok | [Hb | Hb]].
      * unfold ok in Hok. rewrite Hst in Hok. discriminate.
      * rewrite Hb. eexists. split; [ reflexivity | discriminate ].
      * rewrite Hb. eexists. split; [ reflexivity | discriminate ].
Qed.

Lemma creation_fails_before_identifier_witness :
  requests_send (fixed_world (Raise (mk_exn RequestException "dns")) (Ok PNone))
    [] (create_session_request self_abc123)
  = Raise (mk_exn RequestException "dns") /\
  self_after
    (_get_browser_and_page
       (fixed_world (Raise (mk_exn RequestException "dns")) (Ok PNone))
       [] self_abc123)
  = self_abc123.
Proof.
  split; [ reflexivity | ].
  destruct (creation_fails_before_identifier
              (fixed_world (Raise (mk_exn RequestException "dns")) (Ok PNone))
              [] self_abc123) as (e & -> & _).
  - left. exists (mk_exn RequestException "dns"). reflexivity.
  - reflexivity.
Defined.

(** ** Page events *)

Lemma context0_update_pages (f : list Page -> list Page) (s : AnchorBrowser)
    (ps : list Page) :
  context0_pages s = Some ps ->
  context0_pages (context0_update f s) = Some (f ps).
Proof.
  unfold context0_pages, context0_update.
  destruct (_browser s) as [[[ | [ps'] rest]] | ]; simpl; try discriminate.
  intros E. inversion E. reflexivity.
Qed.

Lemma deliver_opened_once (p : Page) (w : world) (h : list event)
    (s : AnchorBrowser) :
  page_listeners s = 1%nat ->
  deliver (PageOpened p) w h s
  = (Ok tt,
     add_close_listener p
       (set_page (Some p) (context0_update (fun ps => (ps ++ [p])%list) s)),
     [Print "New page created"]).
Proof.
  intros Hn.
  destruct (context0_update_frame (fun ps => (ps ++ [p])%list) s)
    as (_ & Hn' & _).
  unfold deliver, bind, update, self. rewrite Hn', Hn. reflexivity.
Qed.

Lemma deliver_closed_once (p : Page) (w : world) (h : list event)
    (s : AnchorBrowser) :
  count_occ Nat.eq_dec (close_listeners s) p = 1%nat ->
  exists h',
    let x := _handle_page_close p w h'
               (context0_update (filter (fun q => negb (Nat.eqb q p))) s) in
    deliver (PageClosed p) w h s = (outcome_of x, self_after x, emitted x).
Proof.
  intros Hc.
  destruct (context0_update_frame (filter (fun q => negb (Nat.eqb q p))) s)
    as (Hc' & _).
  exists ((h ++ []) ++ [])%list.
  unfold deliver, bind, update, self. rewrite Hc', Hc.
  unfold call_times, bind, ret, outcome_of, self_after, emitted.
  destruct (_handle_page_close p w _ _) as [[[ [] | e ] s1] d1]; simpl;
    rewrite ?app_nil_r; reflexivity.
Qed.

(** X15. On an object with one new-page listener: a new-page event for a
    page [p] not yet known makes [p] the active page; when [p] then closes,
    the active page becomes the last page the context had before [p]
    opened, or [None] (with the warning) when it had none. *)
Theorem opened_then_closed
    (p : Page) (ps : list Page) (w w' : world) (h h' : list event)
    (s : AnchorBrowser) :
  page_listeners s = 1%nat ->
  context0_pages s = Some ps ->
  ~ In p ps ->
  ~ In p (close_listeners s) ->
  let opened := deliver (PageOpened p) w h s in
  let closed := deliver (PageClosed p) w' h' (self_after opened) in
  _page (self_after opened) = Some p /\
  context0_pages (self_after opened) = Some (ps ++ [p])%list /\
  outcome_of closed = Ok tt /\
  _page (self_after closed) = last_item ps /\
  context0_pages (self_after closed) = Some ps /\
  printed (emitted closed)
  = "Page closed"
    :: match ps with
       | [] => ["Warning: All pages have been closed."]
       | _ :: _ => []
       end.
Proof.
  intros Hn Hps Hnew Hcl opened closed. subst closed opened.
  rewrite (deliver_opened_once p w h s Hn).
  set (s0 := context0_update (fun ps0 => (ps0 ++ [p])%list) s).
  set (s1 := add_close_listener p (set_page (Some p) s0)).
  change (self_after (Ok tt, s1, [Print "New page created"])) with s1.
  assert (Hs1 : context0_pages s1 = Some (ps ++ [p])%list)
    by exact (context0_update_pages (fun ps0 => (ps0 ++ [p])%list) s ps Hps).
  assert (Hcount : count_occ Nat.eq_dec (close_listeners s1) p = 1%nat).
  { assert (E : close_listeners s1 = (close_listeners s ++ [p])%list).
    { unfold s1, s0. simpl.
      destruct (context0_update_frame (fun ps0 => (ps0 ++ [p])%list) s)
        as (-> & _).
      reflexivity. }
    rewrite E, count_occ_app. unfold Page in *.
    rewrite (proj1 (count_occ_not_In Nat.eq_dec (close_listeners s) p) Hcl).
    simpl. destruct (Nat.eq_dec p p); [ reflexivity | congruence ]. }
  split; [ reflexivity | split; [ exact Hs1 | ] ].
  destruct (deliver_closed_once p w' h' s1 Hcount) as [h'' Heq].
  cbv zeta in Heq. rewrite Heq. clear Heq.
  set (s2 := context0_update (filter (fun q => negb (Nat.eqb q p))) s1).
  assert (Hs2 : context0_pages s2 = Some ps).
  { unfold s2.
    rewrite (context0_update_pages (filter (fun q => negb (Nat.eqb q p))) s1
               _ Hs1).
    unfold Page in *.
    rewrite filter_app, (filter_out_absent p ps Hnew). simpl.
    rewrite Nat.eqb_refl. simpl. rewrite app_nil_r. reflexivity. }
  assert (Hp2 : _page s2 = Some p).
  { unfold s2.
    destruct (context0_update_frame (filter (fun q => negb (Nat.eqb q p))) s1)
      as (_ & _ & -> & _).
    reflexivity. }
  cbn [outcome_of self_after emitted fst snd].
  rewrite handle_page_close_cases. rewrite Hp2, page_is_same.
  clearbody s2. clear Hs1 Hcount. clearbody s1.
  unfold context0_pages in Hs2.
  destruct s2 as [k dbg bu bw sid dims px ad cap t it br pg pl cl].
  simpl in Hs2, Hp2. simpl _browser.
  destruct br as [[[ | [ps'] rest]] | ]; simpl in Hs2; try discriminate.
  assert (ps' = ps) by congruence. subst ps'. simpl.
  destruct ps as [ | p1 ps ].
  - repeat split; reflexivity.
  - destruct (last_item_cons p1 ps) as [q Hq]. rewrite Hq.
    repeat split; reflexivity.
Qed.

Lemma opened_then_closed_witness :
  page_listeners self_connected = 1%nat /\
  context0_pages self_connected = Some [0%nat; 2%nat] /\
  _page
    (self_after
       (deliver (PageClosed 5%nat) quiet_world []
          (self_after (deliver (PageOpened 5%nat) quiet_world []
                         self_connected))))
  = Some 2%nat.
Proof.
  split; [ reflexivity | split; [ reflexivity | ] ].
  assert (Hnew : ~ In 5%nat [0%nat; 2%nat])
    by (simpl; intros [H | [H | []]]; discriminate).
  assert (Hcl : ~ In 5%nat (close_listeners self_connected))
    by (simpl; intros []).
  destruct (opened_then_closed 5%nat [0%nat; 2%nat] quiet_world quiet_world
              [] [] self_connected eq_refl eq_refl Hnew Hcl)
    as (_ & _ & _ & H & _).
  exact H.
Defined.

(** X16. On a connected object, once a page [p] is gone from the page list
    of the first context, [_handle_page_close p] returns normally and does
    not leave [p] as the active page: the active page is the one it was if
    that was not [p], and otherwise the last page of the list or [None]. *)
Theorem closed_page_is_not_active
    (p : Page) (ps : list Page) (w : world) (h : list event)
    (s : AnchorBrowser) :
  context0_pages s = Some ps ->
  ~ In p ps ->
  let x := _handle_page_close p w h s in
  outcome_of x = Ok tt /\
  _page (self_after x) <> Some p /\
  (_page s <> Some p -> _page (self_after x) = _page s) /\
  (_page s = Some p -> _page (self_after x) = last_item ps).
Proof.
  intros Hps Hnot x. subst x. rewrite handle_page_close_cases.
  unfold context0_pages in Hps.
  destruct (_browser s) as [b | ]; [ | discriminate ].
  destruct (contexts b) as [ | ctx rest ]; [ discriminate | ].
  injection Hps as Hpages. subst ps.
  destruct (page_is (_page s) p) eqn:Hcur.
  - assert (Hp : _page s = Some p).
    { destruct (_page s) as [q | ]; [ | discriminate ].
      simpl in Hcur. apply Nat.eqb_eq in Hcur. congruence. }
    destruct (last_item (pages ctx)) as [q | ] eqn:Hq.
    + unfold outcome_of, self_after. simpl.
      split; [ reflexivity | split; [ | split ] ].
      * intros E. inversion E; subst q. apply Hnot.
        apply last_item_In. exact Hq.
      * intros Hne. destruct (Hne Hp).
      * intros _. reflexivity.
    + unfold outcome_of, self_after. simpl.
      split; [ reflexivity | split; [ discriminate | split ] ].
      * intros Hne. destruct (Hne Hp).
      * intros _. reflexivity.
  - assert (Hp : _page s <> Some p).
    { intros E. rewrite E, page_is_same in Hcur. discriminate. }
    unfold outcome_of, self_after. simpl.
    split; [ reflexivity | split; [ exact Hp | split ] ].
    + intros _. reflexivity.
    + intros E. destruct (Hp E).
Qed.

Lemma closed_page_is_not_active_witness :
  context0_pages self_connected = Some [0%nat; 2%nat] /\
  ~ In 7%nat [0%nat; 2%nat] /\
  _page
    (self_after
       (_handle_page_close 7%nat quiet_world []
          (set_page (Some 7%nat) self_connected)))
  = Some 2%nat.
Proof.
  assert (Hnot : ~ In 7%nat [0%nat; 2%nat])
    by (simpl; intros [H | [H | []]]; discriminate).
  split; [ reflexivity | split; [ exact Hnot | ] ].
  destruct (closed_page_is_not_active 7%nat [0%nat; 2%nat] quiet_world []
              (set_page (Some 7%nat) self_connected) eq_refl Hnot)
    as (_ & _ & _ & H).
  exact (H eq_refl).
Defined.

(** ** Across any sequence of calls *)

Lemma deliver_preserves (P : AnchorBrowser -> Prop) :
  (forall f s, P s -> P (context0_update f s)) ->
  (forall p s, P s -> P (add_close_listener p s)) ->
  (forall q s, P s -> P (set_page q s)) ->
  forall ev w h s, P s -> P (self_after (deliver ev w h s)).
Proof.
  intros Hctx Hadd Hset ev w h s Hs. destruct ev as [p | p].
  - destruct (deliver_opened_state p w h s) as [h' ->].
    apply (call_times_preserves P).
    + intros w0 h0 s0 H0. rewrite handle_new_page_effect.
      apply Hadd, Hset, H0.
    + apply Hctx, Hs.
  - destruct (deliver_closed_state p w h s) as [h' ->].
    apply (call_times_preserves P).
    + intros w0 h0 s0 H0.
      destruct (handle_page_close_frame p w0 h0 s0) as [q ->].
      apply Hset, H0.
    + apply Hctx, Hs.
Qed.

Lemma context0_update_config (f : list Page -> list Page) (s : AnchorBrowser) :
  session_id (context0_update f s) = session_id s /\
  api_key (context0_update f s) = api_key s /\
  base_url (context0_update f s) = base_url s.
Proof.
  unfold context0_update.
  destruct (_browser s) as [[[ | [ps] rest]] | ]; repeat split; reflexivity.
Qed.

Lemma exit_state (w : world) (h : list event) (s : AnchorBrowser) :
  self_after (__exit__ w h s) = s
  \/ self_after (__exit__ w h s) = set_session_id PNone s.
Proof.
  destruct (truthy (session_id s)) eqn:Hs.
  - destruct (requests_send w h (delete_session_request s)) as [r | e] eqn:Hr.
    + rewrite (exit_with_session w h s r Hs Hr). right. reflexivity.
    + rewrite (exit_delete_raises w h s e Hs Hr). left. reflexivity.
  - rewrite (exit_without_session w h s Hs). left. reflexivity.
Qed.

Lemma perform_preserves (P : AnchorBrowser -> Prop) :
  (forall f s, P s -> P (context0_update f s)) ->
  (forall p s, P s -> P (add_close_listener p s)) ->
  (forall q s, P s -> P (set_page q s)) ->
  forall a w h s,
    (a = Exit -> P s -> P (set_session_id PNone s)) ->
    P s -> P (self_after (perform a w h s)).
Proof.
  intros Hctx Hadd Hset a w h s Hexit Hs. destruct a as [ev | c | ]; simpl.
  - apply deliver_preserves; assumption.
  - pose proof (run_keeps_self c w h s) as Hc.
    unfold bind, ret. destruct (run c w h s) as [[o s1] d1].
    unfold self_after in *. simpl in Hc. subst s1.
    destruct o; exact Hs.
  - destruct (exit_state w h s) as [-> | ->];
      [ exact Hs | apply Hexit; [ reflexivity | exact Hs ] ].
Qed.

Lemma perform_keeps_config (a : action) (w : world) (h : list event)
    (s : AnchorBrowser) :
  let s' := self_after (perform a w h s) in
  api_key s' = api_key s /\
  base_url s' = base_url s /\
  (session_id s' = session_id s \/ session_id s' = PNone) /\
  (a <> Exit -> session_id s' = session_id s).
Proof.
  intros s'. subst s'.
  assert (H1 : api_key (self_after (perform a w h s)) = api_key s /\
               base_url (self_after (perform a w h s)) = base_url s /\
               (session_id (self_after (perform a w h s)) = session_id s
                \/ session_id (self_after (perform a w h s)) = PNone)).
  { apply (perform_preserves
             (fun s1 => api_key s1 = api_key s /\ base_url s1 = base_url s /\
                        (session_id s1 = session_id s
                         \/ session_id s1 = PNone))).
    - intros f s0 H.
      destruct (context0_update_config f s0) as (-> & -> & ->). exact H.
    - intros p s0 H. exact H.
    - intros q s0 H. exact H.
    - intros _ (Hk & Hb & _). simpl. auto.
    - auto. }
  destruct H1 as (Hk & Hb & Hid).
  split; [ exact Hk | split; [ exact Hb | split; [ exact Hid | ] ] ].
  intros Ha.
  apply (perform_preserves (fun s1 => session_id s1 = session_id s)).
  - intros f s0 H.
    destruct (context0_update_config f s0) as (-> & _). exact H.
  - intros p s0 H. exact H.
  - intros q s0 H. exact H.
  - intros E. destruct (Ha E).
  - reflexivity.
Qed.

(** X17. Through any sequence of commands, page events and teardowns, with
    a caller that goes on after every outcome, the API key and the base
    URL never change and the session identifier is only ever the one the
    sequence started with or [None]; without a teardown in the sequence it
    is the one it started with. *)
Theorem session_identifier_is_stable (actions : list action) :
  forall (w : world) (h : list event) (s : AnchorBrowser),
    let s' := fst (perform_all actions w h s) in
    api_key s' = api_key s /\
    base_url s' = base_url s /\
    (session_id s' = session_id s \/ session_id s' = PNone) /\
    (~ In Exit actions -> session_id s' = session_id s).
Proof.
  induction actions as [ | a rest IH ]; intros w h s s'; subst s'.
  - simpl. auto.
  - simpl.
    pose proof (perform_keeps_config a w h s) as Hkeep. cbv zeta in Hkeep.
    destruct (perform a w h s) as [[o s1] d1].
    unfold self_after in Hkeep. simpl in Hkeep.
    destruct Hkeep as (Hk & Hb & Hid & Hsame).
    specialize (IH w (h ++ d1)%list s1). cbv zeta in IH.
    destruct (perform_all rest w (h ++ d1)%list s1) as [s2 d2].
    simpl in IH. simpl.
    destruct IH as (Hk2 & Hb2 & Hid2 & Hno2).
    split; [ congruence | split; [ congruence | split ] ].
    + destruct Hid2 as [E | E]; [ | right; exact E ].
      rewrite E. exact Hid.
    + intros Hnot.
      assert (Ha : a <> Exit) by (intros ->; apply Hnot; left; reflexivity).
      assert (Hrest : ~ In Exit rest)
        by (intros Hin; apply Hnot; right; exact Hin).
      rewrite (Hno2 Hrest). exact (Hsame Ha).
Qed.

Lemma call_times_emitted (Q : list event -> Prop) (handler : M unit) :
  Q [] ->
  (forall a b, Q a -> Q b -> Q (a ++ b)%list) ->
  (forall w h s, Q (emitted (handler w h s))) ->
  forall n w h s, Q (emitted (call_times n handler w h s)).
Proof.
  intros Hnil Happ Hstep n. induction n as [ | n IH ]; intros w h s.
  - exact Hnil.
  - simpl. unfold bind.
    pose proof (Hstep w h s) as H1.
    destruct (handler w h s) as [[o s1] d1]. unfold emitted in H1.
    simpl in H1.
    destruct o as [ [] | e ]; [ | exact H1 ].
    pose proof (IH w (h ++ d1)%list s1) as H2.
    destruct (call_times n handler w (h ++ d1)%list s1) as [[o2 s2] d2].
    unfold emitted in *. simpl in *. apply Happ; assumption.
Qed.

Lemma deliver_emitted (ev : page_event) (w : world) (h : list event)
    (s : AnchorBrowser) :
  exists n handler h' s',
    (handler = _handle_new_page
                 match ev with PageOpened p | PageClosed p => p end
     \/ handler = _handle_page_close
                    match ev with PageOpened p | PageClosed p => p end) /\
    emitted (deliver ev w h s) = emitted (call_times n handler w h' s').
Proof.
  destruct ev as [p | p]; unfold deliver, bind, update, self.
  - exists (page_listeners (context0_update (fun ps => (ps ++ [p])%list) s)),
      (_handle_new_page p), ((h ++ []) ++ [])%list,
      (context0_update (fun ps => (ps ++ [p])%list) s).
    split; [ left; reflexivity | ].
    destruct (call_times _ (_handle_new_page p) w _ _) as [[o2 s2] d2].
    reflexivity.
  - exists (count_occ Nat.eq_dec
              (close_listeners
                 (context0_update (filter (fun q => negb (Nat.eqb q p))) s))
              p),
      (_handle_page_close p), ((h ++ []) ++ [])%list,
      (context0_update (filter (fun q => negb (Nat.eqb q p))) s).
    split; [ right; reflexivity | ].
    destruct (call_times _ (_handle_page_close p) w _ _) as [[o2 s2] d2].
    reflexivity.
Qed.

(** X18. A page event, however many listeners it reaches, only prints: the
    handlers send no HTTP request, never call the base class, never connect
    or navigate; and they leave the session identifier alone. *)
Theorem page_events_only_print
    (ev : page_event) (w : world) (h : list event) (s : AnchorBrowser) :
  Forall (fun e => exists msg, e = Print msg) (emitted (deliver ev w h s)) /\
  http_calls (emitted (deliver ev w h s)) = [] /\
  super_calls (emitted (deliver ev w h s)) = [] /\
  session_id (self_after (deliver ev w h s)) = session_id s.
Proof.
  assert (Hprints :
            Forall (fun e => exists msg, e = Print msg)
              (emitted (deliver ev w h s))).
  { destruct (deliver_emitted ev w h s) as (n & handler & h' & s' & Hh & ->).
    apply (call_times_emitted
             (Forall (fun e => exists msg, e = Print msg))).
    - constructor.
    - intros a b Ha Hb. apply Forall_app. split; assumption.
    - intros w0 h0 s0. destruct Hh as [-> | ->].
      + rewrite handle_new_page_effect. unfold emitted. simpl.
        repeat constructor. eauto.
      + rewrite handle_page_close_cases.
        destruct (page_is (_page s0) _);
          [ | unfold emitted; simpl; repeat constructor; eauto ].
        destruct (_browser s0) as [b | ];
          [ | unfold emitted; simpl; repeat constructor; eauto ].
        destruct (contexts b) as [ | ctx rest ];
          [ unfold emitted; simpl; repeat constructor; eauto | ].
        destruct (last_item (pages ctx));
          unfold emitted; simpl; repeat constructor; eauto. }
  split; [ exact Hprints | ].
  assert (Hnone : forall d,
             Forall (fun e => exists msg, e = Print msg) d ->
             http_calls d = [] /\ super_calls d = []).
  { intros d Hd. induction Hd as [ | e d (msg & ->) _ IH ];
      [ split; reflexivity | exact IH ]. }
  destruct (Hnone _ Hprints) as [H1 H2].
  split; [ exact H1 | split; [ exact H2 | ] ].
  apply (deliver_preserves (fun s1 => session_id s1 = session_id s)).
  - intros f s0 H. destruct (context0_update_config f s0) as (-> & _). exact H.
  - intros p s0 H. exact H.
  - intros q s0 H. exact H.
  - reflexivity.
Qed.

(** ** Diagnostics *)

(** X19. A click with a navigation button prints nothing.  Any other
    command prints exactly one diagnostic for each call it makes to the
    base class, and so prints nothing when the vendor accepts the
    request. *)
Theorem one_diagnostic_per_fallback
    (c : command) (w : world) (h : list event) (s : AnchorBrowser) :
  let d := emitted (run c w h s) in
  (fallback_only c = true -> printed d = []) /\
  (fallback_only c = false ->
   length (printed d) = length (super_calls d)).
Proof.
  intros d. subst d. split; intros Hb.
  - rewrite run_direct_path by (left; exact Hb).
    unfold direct_path, no_session_notice, emitted. rewrite Hb. reflexivity.
  - destruct (truthy (session_id s)) eqn:Hs.
    + rewrite (run_vendor_path c w h s Hs Hb). unfold vendor_path.
      destruct (requests_send w h _) as [r | e].
      * destruct (ok r); [ reflexivity | ].
        destruct (super_call w _ _) as [v | e]; [ reflexivity | ].
        destruct (is_Exception e); reflexivity.
      * destruct (is_Exception e); reflexivity.
    + rewrite run_direct_path by (right; exact Hs).
      unfold direct_path, no_session_notice, emitted. rewrite Hb.
      destruct c; reflexivity.
Qed.

(** ** Handling the same close twice *)

(** X20. On a connected object whose page list no longer holds [p], a
    second [_handle_page_close p] changes nothing that the first has not
    already done: a page that got its close listener registered twice is
    handled as if it had one. *)
Theorem page_close_is_idempotent
    (p : Page) (ps : list Page) (w w' : world) (h h' : list event)
    (s : AnchorBrowser) :
  context0_pages s = Some ps ->
  ~ In p ps ->
  let once := _handle_page_close p w h s in
  let twice := _handle_page_close p w' h' (self_after once) in
  outcome_of twice = Ok tt /\
  self_after twice = self_after once /\
  printed (emitted twice) = ["Page closed"].
Proof.
  intros Hps Hnot once twice. subst twice once.
  assert (Hafter : _page (self_after (_handle_page_close p w h s)) <> Some p).
  { revert Hps Hnot. rewrite handle_page_close_cases.
    unfold context0_pages.
    destruct (page_is (_page s) p) eqn:Hcur.
    - destruct (_browser s) as [b | ]; [ | discriminate ].
      destruct (contexts b) as [ | ctx rest ]; [ discriminate | ].
      intros Hps Hnot. injection Hps as Hpages. subst ps.
      destruct (last_item (pages ctx)) as [q | ] eqn:Hq;
        unfold self_after; simpl; [ | discriminate ].
      intros E. inversion E; subst q. apply Hnot.
      apply last_item_In. exact Hq.
    - intros _ _ E. unfold self_after in E. simpl in E.
      rewrite E, page_is_same in Hcur. discriminate. }
  rewrite (handle_page_close_cases p w' h').
  rewrite (page_is_other _ p Hafter).
  repeat split; reflexivity.
Qed.

Lemma page_close_is_idempotent_witness :
  context0_pages self_connected = Some [0%nat; 2%nat] /\
  self_after
    (_handle_page_close 7%nat quiet_world []
       (self_after (_handle_page_close 7%nat quiet_world []
                      (set_page (Some 7%nat) self_connected))))
  = self_after (_handle_page_close 7%nat quiet_world []
                  (set_page (Some 7%nat) self_connected)).
Proof.
  split; [ reflexivity | ].
  assert (Hnot : ~ In 7%nat [0%nat; 2%nat])
    by (simpl; intros [H | [H | []]]; discriminate).
  destruct (page_close_is_idempotent 7%nat [0%nat; 2%nat] quiet_world
              quiet_world [] [] (set_page (Some 7%nat) self_connected)
              eq_refl Hnot) as (_ & H & _).
  exact H.
Defined.

(** ** Close events *)

(** Once [p] is not the active page, any number of runs of the close
    handler for [p] only print. *)
Lemma close_handler_runs_inactive (p : Page) (n : nat) :
  forall (w : world) (h : list event) (s : AnchorBrowser),
    _page s <> Some p ->
    call_times n (_handle_page_close p) w h s
    = (Ok tt, s, repeat (Print "Page closed") n).
Proof.
  induction n as [ | n IH ]; intros w h s Hp; [ reflexivity | ].
  simpl. unfold bind.
  rewrite handle_page_close_cases, (page_is_other _ p Hp).
  rewrite (IH w _ s Hp). reflexivity.
Qed.

(** The first run of the close handler for the active page [p], on a
    connected object whose page list no longer holds [p]. *)
Lemma close_handler_first_run (p : Page) (ps : list Page) (w : world)
    (h : list event) (s : AnchorBrowser) :
  _page s = Some p ->
  context0_pages s = Some ps ->
  _handle_page_close p w h s
  = (Ok tt, set_page (last_item ps) s,
     Print "Page closed"
     :: match ps with
        | [] => [Print all_pages_closed_warning]
        | _ :: _ => []
        end).
Proof.
  intros Hp Hps. rewrite handle_page_close_cases, Hp, page_is_same.
  unfold context0_pages in Hps.
  destruct (_browser s) as [b | ]; [ | discriminate ].
  destruct (contexts b) as [ | ctx rest ]; [ discriminate | ].
  injection Hps as Hpages. rewrite Hpages.
  destruct ps as [ | p1 ps ]; [ reflexivity | ].
  destruct (last_item_cons p1 ps) as [q Hq]. rewrite Hq. reflexivity.
Qed.

Lemma not_in_filtered (p : Page) (ps : list Page) :
  ~ In p (filter (fun q => negb (Nat.eqb q p)) ps).
Proof.
  intros Hin. apply filter_In in Hin. destruct Hin as [_ Hne].
  rewrite Nat.eqb_refl in Hne. discriminate.
Qed.

Lemma warning_not_in_closed (n : nat) :
  ~ In all_pages_closed_warning (printed (repeat (Print "Page closed") n)).
Proof.
  induction n as [ | n IH ]; simpl; [ intros [] | ].
  intros [H | H]; [ discriminate | exact (IH H) ].
Qed.

(** A close event for a listened page whose handler finds it active. *)
Lemma deliver_closed_active (p : Page) (ps : list Page) (w : world)
    (h : list event) (s : AnchorBrowser) :
  In p (close_listeners s) ->
  _page s = Some p ->
  context0_pages s = Some ps ->
  let remaining := filter (fun q => negb (Nat.eqb q p)) ps in
  exists n,
    deliver (PageClosed p) w h s
    = (Ok tt,
       set_page (last_item remaining)
         (context0_update (filter (fun q => negb (Nat.eqb q p))) s),
       (Print "Page closed"
        :: match remaining with
           | [] => [Print all_pages_closed_warning]
           | _ :: _ => []
           end)
       ++ repeat (Print "Page closed") n)%list.
Proof.
  intros Hin Hp Hps remaining.
  set (f := filter (fun q => negb (Nat.eqb q p))).
  destruct (context0_update_frame f s) as (Hc & _ & Hpage & _).
  pose proof (context0_update_pages f s ps Hps) as Hps'.
  assert (Hcount : exists n,
             count_occ Nat.eq_dec (close_listeners s) p = S n).
  { pose proof (proj1 (count_occ_In Nat.eq_dec (close_listeners s) p) Hin)
      as Hpos.
    destruct (count_occ Nat.eq_dec (close_listeners s) p) as [ | n ];
      [ inversion Hpos | exists n; reflexivity ]. }
  destruct Hcount as [n Hn]. exists n.
  unfold deliver, bind, update, self. fold f. rewrite Hc, Hn.
  simpl call_times. unfold bind.
  rewrite (close_handler_first_run p (f ps) w _ (context0_update f s));
    [ | rewrite Hpage; exact Hp | exact Hps' ].
  rewrite close_handler_runs_inactive.
  - reflexivity.
  - simpl. intros E.
    apply (not_in_filtered p ps). apply last_item_In. exact E.
Qed.

(** A close event whose handler does not find the page active. *)
Lemma deliver_closed_inactive (p : Page) (w : world) (h : list event)
    (s : AnchorBrowser) :
  _page s <> Some p ->
  deliver (PageClosed p) w h s
  = (Ok tt, context0_update (filter (fun q => negb (Nat.eqb q p))) s,
     repeat (Print "Page closed")
       (count_occ Nat.eq_dec (close_listeners s) p)).
Proof.
  intros Hp.
  set (f := filter (fun q => negb (Nat.eqb q p))).
  destruct (context0_update_frame f s) as (Hc & _ & Hpage & _).
  unfold deliver, bind, update, self. fold f. rewrite Hc.
  rewrite close_handler_runs_inactive by (rewrite Hpage; exact Hp).
  reflexivity.
Qed.

(** C3, as amended.  A close event for a page [p] that carries a close
    listener (one that [_handle_new_page] registered when [p] arrived in a
    new-page event), Playwright having taken [p] off the page list of the
    context: when [p] is the active page and pages remain, the active page
    becomes the last of them and no warning is printed; when [p] is the
    active page and none remains, the active page becomes [None] and the
    warning is printed; when [p] is not the active page, the active page is
    unchanged and no warning is printed. *)
Theorem close_event_transition
    (p : Page) (w : world) (h : list event) (s : AnchorBrowser) :
  In p (close_listeners s) ->
  let x := deliver (PageClosed p) w h s in
  (forall ps,
     _page s = Some p ->
     context0_pages s = Some ps ->
     let remaining := filter (fun q => negb (Nat.eqb q p)) ps in
     outcome_of x = Ok tt /\
     context0_pages (self_after x) = Some remaining /\
     (remaining <> [] ->
      _page (self_after x) = Some (last remaining p) /\
      ~ In all_pages_closed_warning (printed (emitted x))) /\
     (remaining = [] ->
      _page (self_after x) = None /\
      In all_pages_closed_warning (printed (emitted x)))) /\
  (_page s <> Some p ->
   outcome_of x = Ok tt /\
   _page (self_after x) = _page s /\
   ~ In all_pages_closed_warning (printed (emitted x))).
Proof.
  intros Hin x. subst x. split.
  - intros ps Hp Hps remaining.
    destruct (deliver_closed_active p ps w h s Hin Hp Hps) as [n ->].
    fold remaining.
    unfold outcome_of, self_after, emitted. simpl fst. simpl snd.
    split; [ reflexivity | split; [ | split ] ].
    + exact (context0_update_pages
               (filter (fun q => negb (Nat.eqb q p))) s ps Hps).
    + intros Hne. simpl _page.
      rewrite (last_item_last remaining p Hne).
      split; [ reflexivity | ].
      destruct remaining as [ | q rest ]; [ congruence | ].
      simpl. intros [H | H]; [ discriminate | ].
      exact (warning_not_in_closed n H).
    + intros He. rewrite He. simpl.
      split; [ reflexivity | right; left; reflexivity ].
  - intros Hp. rewrite (deliver_closed_inactive p w h s Hp).
    unfold outcome_of, self_after, emitted. simpl fst. simpl snd.
    split; [ reflexivity | split ].
    + destruct (context0_update_frame
                  (filter (fun q => negb (Nat.eqb q p))) s)
        as (_ & _ & -> & _).
      reflexivity.
    + apply warning_not_in_closed.
Qed.

Lemma close_event_transition_witness :
  In 1%nat (close_listeners self_p1_of_p2_p1) /\
  _page self_p1_of_p2_p1 = Some 1%nat /\
  context0_pages self_p1_of_p2_p1 = Some [2%nat; 1%nat] /\
  _page (self_after (deliver (PageClosed 1%nat) quiet_world []
                       self_p1_of_p2_p1))
  = Some 2%nat.
Proof.
  assert (Hin : In 1%nat (close_listeners self_p1_of_p2_p1))
    by (left; reflexivity).
  split; [ exact Hin | split; [ reflexivity | split; [ reflexivity | ] ] ].
  destruct (close_event_transition 1%nat quiet_world [] self_p1_of_p2_p1 Hin)
    as [H _].
  destruct (H [2%nat; 1%nat] eq_refl eq_refl) as (_ & _ & Hsome & _).
  assert (Hne : filter (fun q => negb (Nat.eqb q 1%nat)) [2%nat; 1%nat] <> [])
    by discriminate.
  exact (proj1 (Hsome Hne)).
Defined.

(** C3, as stated, fails for the page the connection starts with.  Right
    after [__enter__] page 0 is the active page and the only page, and it
    has no close listener.  Its close event empties the page list, yet no
    handler runs: the active page is still page 0, not [None], and no
    warning is printed. *)
Lemma close_event_counterexample :
  _page self_entered = Some 0%nat /\
  context0_pages self_entered = Some [0%nat] /\
  close_listeners self_entered = [] /\
  context0_pages
    (self_after (deliver (PageClosed 0%nat) quiet_world [] self_entered))
  = Some [] /\
  _page (self_after (deliver (PageClosed 0%nat) quiet_world [] self_entered))
  = Some 0%nat /\
  printed (emitted (deliver (PageClosed 0%nat) quiet_world [] self_entered))
  = [].
Proof.
  repeat split; reflexivity.
Qed.
